(** * auth-types: validated domain model of the authentication service

    A shallow embedding of the constructors of [@hsuite/auth-types] and the
    properties of its specification.  Every class of the library is a
    TypeScript class whose constructor inspects its argument at run time
    ([typeof], [Array.isArray], [instanceof], regular expressions), throws
    an [Error] on the first violated check and otherwise assigns the fields
    of [this].  The embedding therefore works on dynamically typed
    JavaScript values and threads the object under construction through a
    small state-and-exception monad. *)

From Stdlib Require Import ZArith NArith List String Ascii Bool Lia.
From Stdlib Require Import Floats.SpecFloat.
From stdpp Require Import gmap strings.

Set Warnings "-register-all".
Open Scope string_scope.
Open Scope list_scope.

(** ** JavaScript strings

    A JavaScript string is a sequence of UTF-16 code units; [length],
    [trim], [includes] and the regular expressions of the library all work
    on code units. *)

Definition code_unit := N.
Definition jsstring := list code_unit.

(** String literal of the source (ASCII only). *)
Definition lit (s : string) : jsstring :=
  List.map N_of_ascii (list_ascii_of_string s).

(** Single character of the source. *)
Definition chr (a : ascii) : code_unit := N_of_ascii a.

Arguments lit : simpl never.
Arguments chr : simpl never.

Definition between (lo hi c : code_unit) : bool := (lo <=? c)%N && (c <=? hi)%N.

(** ECMAScript WhiteSpace and LineTerminator code points: the set that
    [String.prototype.trim] strips and that the class escape [\s] matches. *)
Definition is_white_space (c : code_unit) : bool :=
  between 9%N 13%N c                (* TAB, LF, VT, FF, CR *)
  || (c =? 32)%N                (* SPACE *)
  || (c =? 160)%N               (* NO-BREAK SPACE *)
  || (c =? 5760)%N              (* OGHAM SPACE MARK *)
  || between 8192%N 8202%N c        (* EN QUAD .. HAIR SPACE *)
  || (c =? 8232)%N || (c =? 8233)%N   (* LINE / PARAGRAPH SEPARATOR *)
  || (c =? 8239)%N || (c =? 8287)%N   (* NARROW NBSP, MEDIUM MATH SPACE *)
  || (c =? 12288)%N             (* IDEOGRAPHIC SPACE *)
  || (c =? 65279)%N.            (* ZERO WIDTH NO-BREAK SPACE *)

Fixpoint trimStart (s : jsstring) : jsstring :=
  match s with
  | c :: s' => if is_white_space c then trimStart s' else s
  | [] => []
  end.

Definition trimEnd (s : jsstring) : jsstring := rev (trimStart (rev s)).

(** [String.prototype.trim] *)
Definition trim (s : jsstring) : jsstring := trimEnd (trimStart s).

Definition is_empty (s : jsstring) : bool :=
  match s with [] => true | _ => false end.

(** [s.includes(c)] for a one-character search string *)
Definition includes_char (s : jsstring) (c : code_unit) : bool :=
  existsb (N.eqb c) s.

Definition jsstring_eqb (s t : jsstring) : bool :=
  bool_decide (s = t).

(** ** JavaScript numbers

    A number is an IEEE 754 binary64 value; [spec_float] is the Standard
    Library's model of it (signed zeros, infinities, NaN, and finite values
    [(-1)^s * m * 2^e]). *)

Definition number := spec_float.

Definition prec : Z := 53.
Definition emax : Z := 1024.

(** The number written as the integer literal [z] in the source. *)
Definition num (z : Z) : number := binary_normalize prec emax z 0 false.
Arguments num : simpl never.

Definition NaN : number := S754_nan.
Definition zero : number := S754_zero false.

(** [a < b] and [a <= b] on numbers; both are false when an operand is NaN. *)
Definition lt (a b : number) : bool := SFltb a b.
Definition le (a b : number) : bool := SFleb a b.

(** Global [isNaN], applied to a number. *)
Definition isNaN (a : number) : bool :=
  match a with S754_nan => true | _ => false end.

(** [Number.isInteger]: finite, and equal to its own truncation. *)
Definition Number_isInteger (a : number) : bool :=
  match a with
  | S754_zero _ => true
  | S754_finite _ m e =>
      if (0 <=? e)%Z then true else (Z.pos m mod 2 ^ (- e) =? 0)%Z
  | _ => false
  end.

(** [denotes a z]: the number [a] is exactly the integer [z]. *)
Definition denotes (a : number) (z : Z) : Prop :=
  match a with
  | S754_zero _ => z = 0%Z
  | S754_finite s m e =>
      let v := if s then (- z)%Z else z in
      if (0 <=? e)%Z then v = (Z.pos m * 2 ^ e)%Z
      else (v * 2 ^ (- e))%Z = Z.pos m
  | _ => False
  end.

(** ** Values, classes and objects *)

(** The classes of the library that the properties construct or test with
    [instanceof].  [Object_] is the class of plain records (object
    literals); the namespace classes [_TokenGate.Role] and [_User.Tags] are
    declared as [class Role extends _Role {}] and
    [class Tags extends _Tags {}]. *)
Inductive class :=
| Object_
| C_Data | C_Web3_Entity | C_Auth | C_Security
| C_Role | C_TokenGate_Role | C_Options | C_Metadata
| C_User_Entity | C_Tags | C_User_Tags | C_Login | C_Signup.

#[global] Instance class_eq_dec : EqDecision class.
Proof. solve_decision. Defined.

Inductive value :=
| VUndefined
| VNull
| VBool (b : bool)
| VNum (n : number)
| VStr (s : jsstring)
| VArr (elems : list value)
| VObj (cls : class) (props : gmap string value).

Abbreviation object := (gmap string value).

(** Errors thrown by the constructors: [Error(msg)] raised by a failed
    check, and the [TypeError] of a property read on [null]/[undefined]. *)
Inductive exn :=
| Error (msg : string)
| TypeError.

Inductive result (A : Type) :=
| Ok (a : A)
| Throw (e : exn).
Arguments Ok {A} a.
Arguments Throw {A} e.

Definition succeeds {A} (r : result A) : Prop := exists a, r = Ok a.
Definition fails {A} (r : result A) : Prop := exists e, r = Throw e.

Definition typeof (v : value) : string :=
  match v with
  | VUndefined => "undefined"
  | VNull => "object"
  | VBool _ => "boolean"
  | VNum _ => "number"
  | VStr _ => "string"
  | VArr _ => "object"
  | VObj _ _ => "object"
  end.

(** ToBoolean: the truthiness used by [!x]. *)
Definition truthy (v : value) : bool :=
  match v with
  | VUndefined | VNull => false
  | VBool b => b
  | VNum n => match n with S754_zero _ | S754_nan => false | _ => true end
  | VStr s => negb (is_empty s)
  | VArr _ | VObj _ _ => true
  end.

Definition Array_isArray (v : value) : bool :=
  match v with VArr _ => true | _ => false end.

(** Field of an object, [undefined] when absent. *)
Definition field (o : object) (k : string) : value :=
  default VUndefined (o !! k).

(** Property read [v.k].  Reading from [null] or [undefined] throws; a
    primitive or an array has none of the field names the constructors
    read, except [length]. *)
Definition get (v : value) (k : string) : result value :=
  match v with
  | VUndefined | VNull => Throw TypeError
  | VObj _ o => Ok (field o k)
  | VStr s =>
      Ok (if String.eqb k "length" then VNum (num (Z.of_nat (length s)))
          else VUndefined)
  | VArr l =>
      Ok (if String.eqb k "length" then VNum (num (Z.of_nat (length l)))
          else VUndefined)
  | VBool _ | VNum _ => Ok VUndefined
  end.

(** The [extends] clauses of the library. *)
Definition superclass (c : class) : option class :=
  match c with
  | C_TokenGate_Role => Some C_Role
  | C_User_Tags => Some C_Tags
  | _ => None
  end.

(** [v instanceof c]: [c] is on the prototype chain of [v]. *)
Definition instanceof (v : value) (c : class) : bool :=
  match v with
  | VObj k _ =>
      bool_decide (k = c)
      || match superclass k with
         | Some k' => bool_decide (k' = c)
         | None => false
         end
  | _ => false
  end.

(** Receivers of method calls.  The source calls [v.trim()], [v.length],
    [v <= 0] or [v.map(..)] only to the right of [typeof v !== .. ||] or
    [!Array.isArray(v) ||]; when [v] has another type the left disjunct is
    already true and the value chosen here does not reach the result. *)
Definition as_string (v : value) : jsstring :=
  match v with VStr s => s | _ => [] end.
Definition as_number (v : value) : number :=
  match v with VNum n => n | _ => NaN end.
Definition as_array (v : value) : list value :=
  match v with VArr l => l | _ => [] end.

(** [typeof v !== 'string' || v.trim() === ''] *)
Definition not_nonblank_string (v : value) : bool :=
  negb (String.eqb (typeof v) "string") || is_empty (trim (as_string v)).

(** [!v || typeof v !== 'string'] *)
Definition not_nonempty_string (v : value) : bool :=
  negb (truthy v) || negb (String.eqb (typeof v) "string").

(** ** The constructor monad

    A constructor body runs against the object [this] under construction and
    either throws or returns a result together with the updated [this]. *)

Definition ctor (A : Type) := object -> result (A * object).

Definition ret {A} (a : A) : ctor A := fun this => Ok (a, this).

Definition bind {A B} (m : ctor A) (f : A -> ctor B) : ctor B :=
  fun this =>
    match m this with
    | Ok (a, this') => f a this'
    | Throw e => Throw e
    end.

Definition throw {A} (e : exn) : ctor A := fun _ => Throw e.

Definition lift {A} (r : result A) : ctor A :=
  fun this => match r with Ok a => Ok (a, this) | Throw e => Throw e end.

(** [this.k = v] *)
Definition assign (k : string) (v : value) : ctor unit :=
  fun this => Ok (tt, <[k := v]> this).

(** [if (b) throw new Error(msg)] *)
Definition throw_if (b : bool) (msg : string) : ctor unit :=
  if b then throw (Error msg) else ret tt.

Notation "x <- m ;; f" := (bind m (fun x => f))
  (at level 100, m at next level, f at level 200, only parsing).
Notation "m ;; f" := (bind m (fun _ => f))
  (at level 100, f at level 200, only parsing).

(** [arr.map(f)] with a callback that may throw: elements are visited in
    order and the first exception aborts the traversal. *)
Fixpoint array_map (f : value -> ctor value) (l : list value)
  : ctor (list value) :=
  match l with
  | [] => ret []
  | x :: l' => y <- f x ;; ys <- array_map f l' ;; ret (y :: ys)
  end.

(** [new C(args)]: run the body on a fresh object of class [C].  A field
    that the class declares and the constructor does not assign reads as
    [undefined], like a field absent from the map. *)
Definition new (c : class) (body : ctor unit) : result value :=
  match body ∅ with
  | Ok (_, this) => Ok (VObj c this)
  | Throw e => Throw e
  end.

(** Object literal [{ k1: v1, ... }]. *)
Definition record (fields : list (string * value)) : value :=
  VObj Object_ (list_to_map fields).

(** ** Regular expressions

    The patterns of the library use character classes, concatenation, [+],
    [*], [?] and the anchors [^] and [$] around the whole pattern.  For such
    a pattern [RegExp.prototype.test] answers whether the whole string is in
    the language of the pattern; [test] decides that with derivatives. *)

Module RegExp.

Inductive class_item :=
| Single (c : ascii)          (* a literal character of the class *)
| Range (lo hi : ascii)       (* [lo-hi] *)
| Space.                      (* the escape [\s] *)

Definition item_mem (c : code_unit) (i : class_item) : bool :=
  match i with
  | Single a => (c =? chr a)%N
  | Range lo hi => between (chr lo) (chr hi) c
  | Space => is_white_space c
  end.

(** [[items]] when [neg = false], [[^items]] when [neg = true] *)
Definition class_mem (neg : bool) (items : list class_item)
           (c : code_unit) : bool :=
  xorb neg (existsb (item_mem c) items).

Inductive regex :=
| Void
| Eps
| Set_ (neg : bool) (items : list class_item)
| Cat (r1 r2 : regex)
| Alt (r1 r2 : regex)
| Star (r : regex).

(** A literal character, [r+] and [r?] *)
Definition Chr (a : ascii) : regex := Set_ false [Single a].
Definition Plus (r : regex) : regex := Cat r (Star r).
Definition Opt (r : regex) : regex := Alt r Eps.

Fixpoint nullable (r : regex) : bool :=
  match r with
  | Void => false
  | Eps => true
  | Set_ _ _ => false
  | Cat r1 r2 => nullable r1 && nullable r2
  | Alt r1 r2 => nullable r1 || nullable r2
  | Star _ => true
  end.

Fixpoint deriv (c : code_unit) (r : regex) : regex :=
  match r with
  | Void => Void
  | Eps => Void
  | Set_ neg items => if class_mem neg items c then Eps else Void
  | Cat r1 r2 =>
      if nullable r1 then Alt (Cat (deriv c r1) r2) (deriv c r2)
      else Cat (deriv c r1) r2
  | Alt r1 r2 => Alt (deriv c r1) (deriv c r2)
  | Star r1 => Cat (deriv c r1) (Star r1)
  end.

(** [/^r$/.test(s)] *)
Fixpoint test (r : regex) (s : jsstring) : bool :=
  match s with
  | [] => nullable r
  | c :: s' => test (deriv c r) s'
  end.

(** The language of a pattern. *)
Inductive Lang : regex -> jsstring -> Prop :=
| LEps : Lang Eps []
| LSet neg items c : class_mem neg items c = true -> Lang (Set_ neg items) [c]
| LCat r1 r2 s1 s2 : Lang r1 s1 -> Lang r2 s2 -> Lang (Cat r1 r2) (s1 ++ s2)
| LAltL r1 r2 s : Lang r1 s -> Lang (Alt r1 r2) s
| LAltR r1 r2 s : Lang r2 s -> Lang (Alt r1 r2) s
| LStarNil r : Lang (Star r) []
| LStarApp r s1 s2 : Lang r s1 -> Lang (Star r) s2 -> Lang (Star r) (s1 ++ s2).

End RegExp.

(** ** Wallet handshake: the authentication token ([_Data]) *)

Module Web3Request.
Import RegExp.

(** [[A-Za-z0-9-_=]] *)
Definition segment_class : list class_item :=
  [Range "A" "Z"; Range "a" "z"; Range "0" "9";
   Single "-"; Single "_"; Single "="].

(** [[A-Za-z0-9-_.+/=]] *)
Definition tail_class : list class_item :=
  [Range "A" "Z"; Range "a" "z"; Range "0" "9";
   Single "-"; Single "_"; Single "."; Single "+"; Single "/"; Single "="].

(** [/^[A-Za-z0-9-_=]+\.[A-Za-z0-9-_=]+\.?[A-Za-z0-9-_.+/=]*$/] *)
Definition jwt_regex : regex :=
  Cat (Plus (Set_ false segment_class))
 (Cat (Chr ".")
 (Cat (Plus (Set_ false segment_class))
 (Cat (Opt (Chr "."))
      (Star (Set_ false tail_class))))).

Definition _Data (token : value) : ctor unit :=
  throw_if (negb (truthy token) || negb (String.eqb (typeof token) "string"))
           "Token must be a non-empty string" ;;
  throw_if (negb (test jwt_regex (as_string token)))
           "Invalid token format" ;;
  assign "token" token.

End Web3Request.

(** ** Wallet identity ([_Entity] of the web3 credentials) *)

Module Web3.

Definition _Entity (entity : value) : ctor unit :=
  walletId <- lift (get entity "walletId") ;;
  throw_if (not_nonblank_string walletId)
           "walletId must be a non-empty string" ;;
  assign "walletId" walletId ;;
  publicKey <- lift (get entity "publicKey") ;;
  throw_if (not_nonblank_string publicKey)
           "publicKey must be a non-empty string" ;;
  assign "publicKey" publicKey ;;
  balance <- lift (get entity "balance") ;;
  throw_if (negb (Array_isArray balance)) "balance must be an array".

End Web3.

(** ** Second factor: state record ([_Auth]) and security code ([_Security]) *)

Module TwoFactor.

(** [enum IStatus] and the run-time value of each member *)
Inductive IStatus := VERIFIED | UNVERIFIED | DISABLED.

Definition IStatus_value (st : IStatus) : value :=
  match st with
  | VERIFIED => VStr (lit "verified")
  | UNVERIFIED => VStr (lit "unverified")
  | DISABLED => VStr (lit "disabled")
  end.

Definition _Auth (status factorSid identity qr_code : value) : ctor unit :=
  throw_if (negb (String.eqb (typeof status) "object")
            || match status with VNull => true | _ => false end)
           "status must be a valid IAuth.ITwoFactor.IStatus object" ;;
  throw_if (not_nonblank_string factorSid)
           "factorSid must be a non-empty string" ;;
  throw_if (not_nonblank_string identity)
           "identity must be a non-empty string" ;;
  throw_if (not_nonblank_string qr_code)
           "qr_code must be a non-empty string" ;;
  assign "status" status ;;
  assign "factorSid" factorSid ;;
  assign "identity" identity ;;
  assign "qr_code" qr_code.

Definition _Security (code_2fa : value) : ctor unit :=
  throw_if (negb (String.eqb (typeof code_2fa) "number")
            || isNaN (as_number code_2fa)
            || negb (Number_isInteger (as_number code_2fa))
            || lt (as_number code_2fa) zero)
           "code_2fa must be a positive integer" ;;
  assign "code_2fa" code_2fa.

End TwoFactor.

(** ** Token gate: role, options and metadata *)

Module TokenGate.

Definition _Role (role : value) : ctor unit :=
  tokenId <- lift (get role "tokenId") ;;
  throw_if (not_nonempty_string tokenId)
           "tokenId must be a non-empty string" ;;
  assign "tokenId" tokenId ;;
  role_ <- lift (get role "role") ;;
  throw_if (not_nonempty_string role_)
           "role must be a non-empty string" ;;
  assign "role" role_.

Definition _Options (options : value) : ctor unit :=
  enabled <- lift (get options "enabled") ;;
  throw_if (negb (String.eqb (typeof enabled) "boolean"))
           "enabled must be a boolean" ;;
  assign "enabled" enabled ;;
  roles <- lift (get options "roles") ;;
  throw_if (negb (Array_isArray roles)
            || (length (as_array roles) =? 0)%nat)
           "roles must be a non-empty array" ;;
  roles' <- array_map
              (fun role =>
                 throw_if (negb (instanceof role C_Role))
                          "Each role must be an instance of _IRole" ;;
                 ret role)
              (as_array roles) ;;
  assign "roles" (VArr roles').

Definition _Metadata (metadata : value) : ctor unit :=
  name <- lift (get metadata "name") ;;
  throw_if (not_nonblank_string name) "name must be a non-empty string" ;;
  assign "name" name ;;
  description <- lift (get metadata "description") ;;
  throw_if (not_nonblank_string description)
           "description must be a non-empty string" ;;
  assign "description" description ;;
  creator <- lift (get metadata "creator") ;;
  throw_if (not_nonblank_string creator)
           "creator must be a non-empty string" ;;
  assign "creator" creator ;;
  properties <- lift (get metadata "properties") ;;
  throw_if (negb (String.eqb (typeof properties) "object")
            || match properties with VNull => true | _ => false end)
           "properties must be a non-null object" ;;
  assign "properties" properties ;;
  image <- lift (get metadata "image") ;;
  throw_if (not_nonblank_string image) "image must be a non-empty string" ;;
  assign "image" image.

End TokenGate.

(** ** User identity ([_Entity]) and tags ([_Tags]) *)

Module User.

(** [enum IType { WEB2 = 'web2', WEB3 = 'web3' }] *)
Inductive IType := WEB2 | WEB3.

Definition IType_value (t : IType) : jsstring :=
  match t with
  | WEB2 => lit "web2"
  | WEB3 => lit "web3"
  end.

(** [Object.values(IType)] *)
Definition IType_values : list jsstring := [IType_value WEB2; IType_value WEB3].

(** [strings.includes(v)]: some element is the same value as [v] *)
Definition includes (strings : list jsstring) (v : value) : bool :=
  match v with
  | VStr s => existsb (jsstring_eqb s) strings
  | _ => false
  end.

Definition _Tags (tag : value) : ctor unit :=
  key <- lift (get tag "key") ;;
  throw_if (not_nonblank_string key) "Key must be a non-empty string" ;;
  assign "key" key ;;
  value_ <- lift (get tag "value") ;;
  throw_if (not_nonblank_string value_) "Value must be a non-empty string" ;;
  assign "value" value_.

(** The callback of [entity.tags.map] in [_Entity].  Reading [tag.value]
    before the test on [tag.key] changes nothing: a read has no effect, and
    it throws only when [tag] is [null] or [undefined], where the read of
    [tag.key] throws first. *)
Definition check_tag (tag : value) : ctor value :=
  key <- lift (get tag "key") ;;
  value_ <- lift (get tag "value") ;;
  throw_if (negb (String.eqb (typeof key) "string")
            || negb (String.eqb (typeof value_) "string"))
           "Each tag must have a key and value of type string" ;;
  ret tag.

Definition _Entity (entity : value) : ctor unit :=
  username <- lift (get entity "username") ;;
  throw_if (not_nonblank_string username)
           "Username must be a non-empty string" ;;
  assign "username" username ;;
  email <- lift (get entity "email") ;;
  throw_if (negb (String.eqb (typeof email) "string")
            || negb (includes_char (as_string email) (chr "@")))
           "Invalid email format" ;;
  assign "email" email ;;
  created_at <- lift (get entity "created_at") ;;
  throw_if (negb (String.eqb (typeof created_at) "number")
            || le (as_number created_at) zero)
           "Created_at must be a positive number" ;;
  assign "created_at" created_at ;;
  updated_at <- lift (get entity "updated_at") ;;
  throw_if (negb (String.eqb (typeof updated_at) "number")
            || lt (as_number updated_at) (as_number created_at))
           "Updated_at must be a number greater than or equal to created_at" ;;
  assign "updated_at" updated_at ;;
  type <- lift (get entity "type") ;;
  throw_if (negb (includes IType_values type)) "Invalid user type" ;;
  assign "type" type ;;
  tags <- lift (get entity "tags") ;;
  throw_if (negb (Array_isArray tags)) "Tags must be an array" ;;
  tags' <- array_map check_tag (as_array tags) ;;
  assign "tags" (VArr tags').

End User.

(** ** Traditional credentials: login and signup DTOs *)

Module Web2Dto.
Import RegExp.

(** [[^\s@]] *)
Definition email_class : regex := Set_ true [Space; Single "@"].

(** [/^[^\s@]+@[^\s@]+\.[^\s@]+$/] *)
Definition emailRegex : regex :=
  Cat (Plus email_class)
 (Cat (Chr "@")
 (Cat (Plus email_class)
 (Cat (Chr ".")
      (Plus email_class)))).

Definition _Login (login : value) : ctor unit :=
  username <- lift (get login "username") ;;
  throw_if (not_nonblank_string username)
           "Username must be a non-empty string" ;;
  assign "username" username ;;
  email <- lift (get login "email") ;;
  throw_if (negb (String.eqb (typeof email) "string")
            || negb (test emailRegex (as_string email)))
           "Invalid email format" ;;
  assign "email" email ;;
  password <- lift (get login "password") ;;
  throw_if (negb (String.eqb (typeof password) "string")
            || (length (as_string password) <? 8)%nat)
           "Password must be a string with at least 8 characters" ;;
  assign "password" password.

Definition _Signup (signup : value) : ctor unit :=
  username <- lift (get signup "username") ;;
  throw_if (not_nonblank_string username)
           "Username must be a non-empty string" ;;
  assign "username" username ;;
  email <- lift (get signup "email") ;;
  throw_if (negb (String.eqb (typeof email) "string")
            || negb (test emailRegex (as_string email)))
           "Invalid email format" ;;
  assign "email" email ;;
  password <- lift (get signup "password") ;;
  throw_if (negb (String.eqb (typeof password) "string")
            || (length (as_string password) <? 8)%nat)
           "Password must be a string with at least 8 characters" ;;
  assign "password" password ;;
  tags <- lift (get signup "tags") ;;
  throw_if (negb (Array_isArray tags)
            || (length (as_array tags) =? 0)%nat)
           "Tags must be a non-empty array" ;;
  tags' <- array_map
             (fun tag => lift (new C_User_Tags (User._Tags tag)))
             (as_array tags) ;;
  assign "tags" (VArr tags').

End Web2Dto.

(** ** Sample inputs (the examples of the source documentation) *)

Definition str (s : string) : value := VStr (lit s).

Definition john : value :=
  record [("username", str "john_doe");
          ("email", str "john@example.com");
          ("created_at", VNum (num 1625097600000));
          ("updated_at", VNum (num 1625184000000));
          ("type", VStr (User.IType_value User.WEB2));
          ("tags", VArr [record [("key", str "role"); ("value", str "user")]])].

(** [entity] with field [k] replaced by [v] *)
Definition with_field (entity : value) (k : string) (v : value) : value :=
  match entity with
  | VObj c o => VObj c (<[k := v]> o)
  | _ => entity
  end.

Definition wallet : value :=
  record [("walletId", str "0x1234567890abcdef");
          ("publicKey", str "0xabcdef1234567890");
          ("balance", VArr [])].

Definition member_role : value :=
  record [("tokenId", str "0x1"); ("role", str "member")].

Definition login_john : value :=
  record [("username", str "john_doe");
          ("email", str "john@example.com");
          ("password", str "securePassword123")].

Definition signup_john : value :=
  record [("username", str "john_doe");
          ("email", str "john@example.com");
          ("password", str "securePassword123");
          ("tags", VArr [record [("key", str "role"); ("value", str "user")]])].

(** ** Predicates of the specification *)

(** The segments of [s] between the occurrences of [sep]. *)
Fixpoint split_on (sep : code_unit) (s : jsstring) : list jsstring :=
  match s with
  | [] => [[]]
  | c :: s' =>
      if (c =? sep)%N then [] :: split_on sep s'
      else match split_on sep s' with
           | seg :: segs => (c :: seg) :: segs
           | [] => [[c]]
           end
  end.

(** The base64url alphabet: letters, digits, [-] and [_]. *)
Definition base64url_char (c : code_unit) : bool :=
  between (chr "A") (chr "Z") c || between (chr "a") (chr "z") c
  || between (chr "0") (chr "9") c || (c =? chr "-")%N || (c =? chr "_")%N.

(** "three dot-separated segments of base64url-alphabet characters" *)
Definition three_segments (s : jsstring) : bool :=
  match split_on (chr ".") s with
  | [a; b; c] =>
      forallb (fun seg => negb (is_empty seg) && forallb base64url_char seg)
              [a; b; c]
  | _ => false
  end.

(** "an @-separated local part and domain part" *)
Definition local_at_domain (s : jsstring) : bool :=
  match split_on (chr "@") s with
  | [l; d] => negb (is_empty l) && negb (is_empty d)
  | _ => false
  end.

(** A string made of white space only (the empty string included). *)
Definition whitespace_only (s : jsstring) : bool := forallb is_white_space s.

(** Characters of the two classes of the token pattern and of the class of
    the e-mail pattern. *)
Definition segment_char (c : code_unit) : Prop :=
  RegExp.class_mem false Web3Request.segment_class c = true.
Definition tail_char (c : code_unit) : Prop :=
  RegExp.class_mem false Web3Request.tail_class c = true.
Definition email_char (c : code_unit) : Prop :=
  is_white_space c = false /\ c <> chr "@".

(** The shape accepted by the token pattern: two non-empty segments
    separated by a dot, then any run of tail characters (which may start
    with, and contain, further dots). *)
Definition token_shape (s : jsstring) : Prop :=
  exists a b rest,
    s = a ++ chr "." :: b ++ rest /\
    a <> [] /\ b <> [] /\
    Forall segment_char a /\ Forall segment_char b /\ Forall tail_char rest.

(** The shape accepted by the e-mail pattern of the DTOs:
    [local@domain.tld] without white space or a second [@]. *)
Definition email_shape (s : jsstring) : Prop :=
  exists l d t,
    s = l ++ chr "@" :: d ++ chr "." :: t /\
    l <> [] /\ d <> [] /\ t <> [] /\
    Forall email_char l /\ Forall email_char d /\ Forall email_char t.

(** A callback of [map] that returns its argument and leaves [this] alone. *)
Definition validator (f : value -> ctor value) : Prop :=
  forall x this r, f x this = Ok r -> r = (x, this).

(** A tag whose [key] and [value] are strings (possibly empty). *)
Definition string_tag (tag : value) : Prop :=
  exists k v, get tag "key" = Ok (VStr k) /\ get tag "value" = Ok (VStr v).

(** A tag whose [key] and [value] are non-empty strings. *)
Definition nonempty_tag (tag : value) : Prop :=
  exists k v, get tag "key" = Ok (VStr k) /\ get tag "value" = Ok (VStr v)
              /\ k <> [] /\ v <> [].

(** The e-mail check of the user entity: a string that contains [@]. *)
Definition contains_at (email : value) : Prop :=
  exists s, email = VStr s /\ In (chr "@") s.

(** ** Further constructors of the library

    The constructors below run for a class and for the namespace classes
    that extend it ([class Secrets extends _Secrets {}] and the like); where
    a constructor builds an instance of another class, the class of that
    instance is an argument of the model. *)

(** [!v || typeof v !== 'object'] *)
Definition not_object (v : value) : bool :=
  negb (truthy v) || negb (String.eqb (typeof v) "object").

(** [typeof v !== 'object' || v === null] *)
Definition not_nonnull_object (v : value) : bool :=
  negb (String.eqb (typeof v) "object")
  || match v with VNull => true | _ => false end.

Module Twilio.

Definition _Secrets (accountSid authToken serviceSid : value) : ctor unit :=
  throw_if (not_nonblank_string accountSid)
           "accountSid must be a non-empty string" ;;
  throw_if (not_nonblank_string authToken)
           "authToken must be a non-empty string" ;;
  throw_if (not_nonblank_string serviceSid)
           "serviceSid must be a non-empty string" ;;
  assign "accountSid" accountSid ;;
  assign "authToken" authToken ;;
  assign "serviceSid" serviceSid.

(** [Secrets] is the class [_Twilio.Secrets]. *)
Definition _Options (Secrets : class) (twilioSecrets enabled : value)
  : ctor unit :=
  accountSid <- lift (get twilioSecrets "accountSid") ;;
  authToken <- lift (get twilioSecrets "authToken") ;;
  serviceSid <- lift (get twilioSecrets "serviceSid") ;;
  secrets <- lift (new Secrets (_Secrets accountSid authToken serviceSid)) ;;
  assign "twilioSecrets" secrets ;;
  throw_if (negb (String.eqb (typeof enabled) "boolean"))
           "enabled must be a boolean" ;;
  assign "twilioSecrets" twilioSecrets ;;
  assign "enabled" enabled.

End Twilio.

Module TokenGateModels.

Definition _Entity (entity : value) : ctor unit :=
  metadata <- lift (get entity "metadata") ;;
  throw_if (not_object metadata) "metadata must be a non-null object" ;;
  assign "metadata" metadata ;;
  serial_number <- lift (get entity "serial_number") ;;
  throw_if (negb (String.eqb (typeof serial_number) "number")
            || isNaN (as_number serial_number))
           "serial_number must be a valid number" ;;
  assign "serial_number" serial_number ;;
  token_id <- lift (get entity "token_id") ;;
  throw_if (not_nonblank_string token_id)
           "token_id must be a non-empty string" ;;
  assign "token_id" token_id.

Definition _Properties (properties : value) : ctor unit :=
  plan <- lift (get properties "plan") ;;
  throw_if (not_object plan) "plan must be a valid object" ;;
  assign "plan" plan ;;
  periodicity <- lift (get properties "periodicity") ;;
  throw_if (not_object periodicity) "periodicity must be a valid object" ;;
  assign "periodicity" periodicity.

End TokenGateModels.

Module Web2Response.

Definition _Logout (logoutData : value) : ctor unit :=
  logout <- lift (get logoutData "logout") ;;
  throw_if (negb (String.eqb (typeof logout) "boolean"))
           "Logout status must be a boolean" ;;
  assign "logout" logout ;;
  message <- lift (get logoutData "message") ;;
  throw_if (not_nonblank_string message)
           "Message must be a non-empty string" ;;
  assign "message" message.

End Web2Response.

Module Web3Response.

Definition _Logout (logout message : value) : ctor unit :=
  throw_if (negb (String.eqb (typeof logout) "boolean"))
           "Logout must be a boolean value" ;;
  assign "logout" logout ;;
  throw_if (negb (String.eqb (typeof message) "string")
            || (length (trim (as_string message)) =? 0)%nat)
           "Message must be a non-empty string" ;;
  assign "message" message.

Definition _Login (data : value) : ctor unit :=
  session <- lift (get data "session") ;;
  throw_if (not_object session) "Invalid session: must be an object" ;;
  operator <- lift (get data "operator") ;;
  throw_if (not_object operator) "Invalid operator: must be an object" ;;
  accessToken <- lift (get data "accessToken") ;;
  throw_if (not_nonempty_string accessToken)
           "Invalid accessToken: must be a non-empty string" ;;
  assign "session" session ;;
  assign "operator" operator ;;
  assign "accessToken" accessToken.

End Web3Response.

Module TwoFactorResponse.

Definition _Create (factorSid identity uri secret message : value)
  : ctor unit :=
  throw_if (not_nonblank_string factorSid)
           "factorSid must be a non-empty string" ;;
  throw_if (not_nonblank_string identity)
           "identity must be a non-empty string" ;;
  throw_if (not_nonblank_string uri) "uri must be a non-empty string" ;;
  throw_if (not_nonblank_string secret) "secret must be a non-empty string" ;;
  throw_if (negb (String.eqb (typeof message) "string"))
           "message must be a string" ;;
  assign "factorSid" factorSid ;;
  assign "identity" identity ;;
  assign "uri" uri ;;
  assign "secret" secret ;;
  assign "message" message.

Definition _Delete (success message : value) : ctor unit :=
  throw_if (negb (String.eqb (typeof success) "boolean"))
           "Success must be a boolean value" ;;
  throw_if (negb (String.eqb (typeof message) "string"))
           "Message must be a string" ;;
  assign "success" success ;;
  assign "message" message.

Definition _Verify (success message : value) : ctor unit :=
  throw_if (negb (String.eqb (typeof success) "boolean"))
           "Success must be a boolean" ;;
  throw_if (negb (String.eqb (typeof message) "string"))
           "Message must be a string" ;;
  assign "success" success ;;
  assign "message" message.

End TwoFactorResponse.

Module Web3Authentication.

Definition _Authenticate (data : value) : ctor unit :=
  signedData <- lift (get data "signedData") ;;
  throw_if (not_object signedData) "Invalid signedData: must be an object" ;;
  payload <- lift (get data "payload") ;;
  throw_if (not_object payload) "Invalid payload: must be an object" ;;
  assign "signedData" signedData ;;
  assign "payload" payload.

(** The sign-in request of the dual-signature variant *)
Definition _Login (login : value) : ctor unit :=
  operator <- lift (get login "operator") ;;
  throw_if (not_object operator) "Operator must be a valid object" ;;
  assign "operator" operator ;;
  signedData <- lift (get login "signedData") ;;
  throw_if (not_object signedData) "Signed data must be a valid object" ;;
  assign "signedData" signedData.

(** [URL_parses s] tells whether the platform's [new URL(s)] returns
    instead of throwing.  The test on [payload.data.token] is the third
    disjunct of the source's condition and is reached for an object only. *)
Definition _Payload (URL_parses : jsstring -> bool) (payload : value)
  : ctor unit :=
  url <- lift (get payload "url") ;;
  throw_if (not_nonempty_string url) "URL must be a non-empty string" ;;
  throw_if (negb (URL_parses (as_string url))) "Invalid URL format" ;;
  node <- lift (get payload "node") ;;
  throw_if (not_nonempty_string node) "Node must be a non-empty string" ;;
  data <- lift (get payload "data") ;;
  throw_if (not_object data) "Invalid data object" ;;
  token <- lift (get data "token") ;;
  throw_if (negb (truthy token)) "Invalid data object" ;;
  assign "url" url ;;
  assign "node" node ;;
  data' <- lift (new C_Data (Web3Request._Data token)) ;;
  assign "data" data'.

End Web3Authentication.

Module Configuration.

(** [enum IPassportStrategy { REDIS = 'redis', JWT = 'jwt' }] *)
Inductive IPassportStrategy := REDIS | JWT.

Definition IPassportStrategy_value (p : IPassportStrategy) : jsstring :=
  match p with
  | REDIS => lit "redis"
  | JWT => lit "jwt"
  end.

(** [Object.values(IPassportStrategy)] *)
Definition IPassportStrategy_values : list jsstring :=
  [IPassportStrategy_value REDIS; IPassportStrategy_value JWT].

(** [invalid_passport v] is what
    [throw new Error(`passport must be ... Received: ${v}`)] raises: an
    [Error] whose message ends with the string conversion of [v], or the
    [TypeError] of a conversion that fails. *)
Definition _Options (invalid_passport : value -> exn) (options : value)
  : ctor unit :=
  redis <- lift (get options "redis") ;;
  throw_if (not_nonnull_object redis) "redis must be a non-null object" ;;
  assign "redis" redis ;;
  jwt <- lift (get options "jwt") ;;
  throw_if (not_nonnull_object jwt) "jwt must be a non-null object" ;;
  assign "jwt" jwt ;;
  cookieOptions <- lift (get options "cookieOptions") ;;
  throw_if (not_nonnull_object cookieOptions)
           "cookieOptions must be a non-null object" ;;
  assign "cookieOptions" cookieOptions ;;
  operator <- lift (get options "operator") ;;
  throw_if (not_nonnull_object operator)
           "operator must be a non-null object" ;;
  assign "operator" operator ;;
  passport <- lift (get options "passport") ;;
  (if negb (User.includes IPassportStrategy_values passport)
   then throw (invalid_passport passport) else ret tt) ;;
  assign "passport" passport ;;
  appName <- lift (get options "appName") ;;
  throw_if (not_nonblank_string appName)
           "appName must be a non-empty string" ;;
  assign "appName" appName.



End Configuration.

Module Web2Configuration.

(** [Options] and [Secrets] are the classes [_Twilio.Options] and
    [_Twilio.Secrets]. *)
Definition _Options (Options Secrets : class) (options : value) : ctor unit :=
  confirmation_required <- lift (get options "confirmation_required") ;;
  throw_if (negb (String.eqb (typeof confirmation_required) "boolean"))
           "confirmation_required must be a boolean" ;;
  assign "confirmation_required" confirmation_required ;;
  admin_only <- lift (get options "admin_only") ;;
  throw_if (negb (String.eqb (typeof admin_only) "boolean"))
           "admin_only must be a boolean" ;;
  assign "admin_only" admin_only ;;
  sendMailOptions <- lift (get options "sendMailOptions") ;;
  throw_if (not_nonnull_object sendMailOptions)
           "sendMailOptions must be an object" ;;
  confirm <- lift (get sendMailOptions "confirm") ;;
  reset <- lift (get sendMailOptions "reset") ;;
  throw_if (negb (truthy confirm) || negb (truthy reset))
           "sendMailOptions must contain confirm and reset properties" ;;
  assign "sendMailOptions" sendMailOptions ;;
  mailerOptions <- lift (get options "mailerOptions") ;;
  throw_if (not_nonnull_object mailerOptions)
           "mailerOptions must be an object" ;;
  assign "mailerOptions" mailerOptions ;;
  twilioOptions <- lift (get options "twilioOptions") ;;
  throw_if (not_nonnull_object twilioOptions)
           "twilioOptions must be an object" ;;
  twilioSecrets <- lift (get twilioOptions "twilioSecrets") ;;
  enabled <- lift (get twilioOptions "enabled") ;;
  throw_if (negb (truthy twilioSecrets)
            || negb (String.eqb (typeof enabled) "boolean"))
           "twilioOptions must contain twilioSecrets and enabled properties" ;;
  twilio <- lift (new Options (Twilio._Options Secrets twilioSecrets enabled)) ;;
  assign "twilioOptions" twilio.

End Web2Configuration.

(** A non-null object: a record, an instance of a class, or an array. *)
Definition is_object (v : value) : Prop :=
  (exists c o, v = VObj c o) \/ (exists l, v = VArr l).

(** A string with a character that is not white space. *)
Definition nonblank (v : value) : Prop :=
  exists s, v = VStr s /\ whitespace_only s = false.

(** A non-empty string (white space counts). *)
Definition nonempty (v : value) : Prop :=
  exists s, v = VStr s /\ s <> [].

Definition is_boolean (v : value) : Prop := exists b, v = VBool b.
Definition is_string (v : value) : Prop := exists s, v = VStr s.

(** The number of occurrences of a character. *)
Definition occurrences (c : code_unit) (s : jsstring) : nat :=
  length (List.filter (fun x => N.eqb x c) s).


(** Sample configuration inputs. *)
Definition common_options_sample : value :=
  record [("redis", record []); ("jwt", record []);
          ("cookieOptions", record []); ("operator", record []);
          ("passport", VStr (Configuration.IPassportStrategy_value
                               Configuration.JWT));
          ("appName", str "HSuite")].

Definition twilio_secrets_sample : value :=
  record [("accountSid", str "AC123"); ("authToken", str "token");
          ("serviceSid", str "VA456")].

Definition web2_options_sample : value :=
  record [("confirmation_required", VBool true);
          ("admin_only", VBool false);
          ("sendMailOptions",
           record [("confirm", record []); ("reset", record [])]);
          ("mailerOptions", record []);
          ("twilioOptions",
           record [("twilioSecrets", twilio_secrets_sample);
                   ("enabled", VBool true)])].


(** The exception of an invalid passport, with the string conversion left
    out of the message. *)
Definition invalid_passport_sample (v : value) : exn :=
  Error "passport must be a valid IPassportStrategy. Received: ".

(** * Properties *)

(** ** Results and the constructor monad *)

Lemma result_cases {A} (r : result A) : succeeds r \/ fails r.
Proof. destruct r; [left | right]; eexists; reflexivity. Qed.

Lemma fails_not_succeeds {A} (r : result A) : fails r <-> ~ succeeds r.
Proof.
  split.
  - intros [e ->] [a H]. discriminate.
  - intros H. destruct (result_cases r) as [Hs | Hf]; [contradiction | exact Hf].
Qed.

Lemma bind_Ok {A B} (m : ctor A) (f : A -> ctor B) this r :
  bind m f this = Ok r <->
  exists a this', m this = Ok (a, this') /\ f a this' = Ok r.
Proof.
  unfold bind. destruct (m this) as [[a this'] | e].
  - split; [intros H; exists a, this'; auto | intros (? & ? & [= <- <-] & H); exact H].
  - split; [discriminate | intros (? & ? & ? & _); discriminate].
Qed.

Lemma throw_if_Ok b msg this r :
  throw_if b msg this = Ok r <-> b = false /\ r = (tt, this).
Proof.
  unfold throw_if, throw, ret. destruct b; split.
  - discriminate.
  - intros [? _]; discriminate.
  - intros [= <-]; auto.
  - intros [_ ->]; reflexivity.
Qed.

Lemma lift_Ok {A} (x : result A) this r :
  lift x this = Ok r <-> exists a, x = Ok a /\ r = (a, this).
Proof.
  unfold lift. destruct x; split.
  - intros [= <-]; eauto.
  - intros (? & [= <-] & ->); reflexivity.
  - discriminate.
  - intros (? & ? & _); discriminate.
Qed.

Lemma assign_Ok k v this r :
  assign k v this = Ok r <-> r = (tt, <[k := v]> this).
Proof. unfold assign; split; [intros [= <-] | intros ->]; reflexivity. Qed.

Lemma ret_Ok {A} (a : A) this r : ret a this = Ok r <-> r = (a, this).
Proof. unfold ret; split; [intros [= <-] | intros ->]; reflexivity. Qed.

Lemma new_Ok c body v :
  new c body = Ok v <-> exists this, body ∅ = Ok (tt, this) /\ v = VObj c this.
Proof.
  unfold new. destruct (body ∅) as [[[] this] | e]; split.
  - intros [= <-]; eauto.
  - intros (? & [= <-] & ->); reflexivity.
  - discriminate.
  - intros (? & ? & _); discriminate.
Qed.

(** Inversion of a successful run, one statement at a time. *)
Ltac ctor_inv H :=
  repeat first
    [ apply new_Ok in H; destruct H as (? & H & ?)
    | apply bind_Ok in H; destruct H as (? & ? & ? & H)
    | match goal with
      | H1 : throw_if _ _ _ = Ok _ |- _ =>
          apply throw_if_Ok in H1; destruct H1 as [? ?]
      | H1 : lift _ _ = Ok _ |- _ =>
          apply lift_Ok in H1; destruct H1 as (? & ? & ?)
      | H1 : assign _ _ _ = Ok _ |- _ => apply assign_Ok in H1
      | H1 : ret _ _ = Ok _ |- _ => apply ret_Ok in H1
      end ];
  simplify_eq.

(** Forward execution of a run whose checks all pass; the conditions of the
    checks are left as goals. *)
Ltac ctor_run :=
  repeat first
    [ apply new_Ok; eexists; split; [| reflexivity]
    | apply bind_Ok; eexists _, _; split
    | apply lift_Ok; eexists; split; [eassumption | reflexivity]
    | apply assign_Ok; reflexivity
    | apply ret_Ok; reflexivity
    | apply throw_if_Ok; split; [| reflexivity] ].

Lemma typeof_string v :
  String.eqb (typeof v) "string" = true <-> exists s, v = VStr s.
Proof.
  destruct v; simpl; split; try discriminate; eauto; intros [? ?]; discriminate.
Qed.

Lemma typeof_number v :
  String.eqb (typeof v) "number" = true <-> exists n, v = VNum n.
Proof.
  destruct v; simpl; split; try discriminate; eauto; intros [? ?]; discriminate.
Qed.

(** ** Numbers *)

Lemma lt_zero_sign n :
  lt n zero = true ->
  n = S754_infinity true \/ exists m e, n = S754_finite true m e.
Proof.
  destruct n as [s | s | | s m e]; simpl; try discriminate.
  - destruct s; [auto | discriminate].
  - destruct s; [eauto | discriminate].
Qed.

Lemma integer_nonneg_denotes n :
  isNaN n = false -> Number_isInteger n = true -> lt n zero = false ->
  exists z, denotes n z /\ (0 <= z)%Z.
Proof.
  destruct n as [s | s | | s m e]; simpl; try discriminate.
  - intros _ _ _. exists 0%Z. split; [reflexivity | lia].
  - intros _ Hint Hlt. destruct s; [discriminate |].
    destruct (0 <=? e)%Z eqn:He.
    + exists (Z.pos m * 2 ^ e)%Z. split; [reflexivity |].
      apply Z.leb_le in He. apply Z.mul_nonneg_nonneg; [lia |].
      apply Z.pow_nonneg; lia.
    + apply Z.leb_gt in He. apply Z.eqb_eq in Hint.
      assert (Hp : (0 < 2 ^ (- e))%Z) by (apply Z.pow_pos_nonneg; lia).
      exists (Z.pos m / 2 ^ (- e))%Z. split.
      * pose proof (Z.div_mod (Z.pos m) (2 ^ (- e))) as Hdm.
        rewrite Hint in Hdm. lia.
      * apply Z.div_pos; lia.
Qed.

Lemma denotes_nonneg_integer n z :
  denotes n z -> (0 <= z)%Z ->
  isNaN n = false /\ Number_isInteger n = true /\ lt n zero = false.
Proof.
  destruct n as [s | s | | s m e]; simpl; try contradiction.
  - auto.
  - intros Hd Hz. split; [reflexivity |].
    destruct (0 <=? e)%Z eqn:He.
    + apply Z.leb_le in He.
      assert (Hp : (0 < 2 ^ e)%Z) by (apply Z.pow_pos_nonneg; lia).
      destruct s; [nia | auto].
    + apply Z.leb_gt in He.
      assert (Hp : (0 < 2 ^ (- e))%Z) by (apply Z.pow_pos_nonneg; lia).
      destruct s; [nia |]. split; [| reflexivity].
      apply Z.eqb_eq. rewrite <- Hd. apply Z.mod_mul. lia.
Qed.

(** A value that [denotes] an integer denotes only that one. *)
Lemma denotes_functional n z1 z2 : denotes n z1 -> denotes n z2 -> z1 = z2.
Proof.
  destruct n as [s | s | | s m e]; simpl; try contradiction.
  - congruence.
  - destruct (0 <=? e)%Z eqn:He.
    + destruct s; lia.
    + apply Z.leb_gt in He.
      assert (Hp : (0 < 2 ^ (- e))%Z) by (apply Z.pow_pos_nonneg; lia).
      destruct s; nia.
Qed.

(** ** Security code *)

Lemma Security_Ok code_2fa v :
  new C_Security (TwoFactor._Security code_2fa) = Ok v <->
  (exists n, code_2fa = VNum n /\ isNaN n = false /\
             Number_isInteger n = true /\ lt n zero = false)
  /\ v = VObj C_Security {["code_2fa" := code_2fa]}.
Proof.
  unfold TwoFactor._Security. split.
  - intros H. ctor_inv H.
    repeat match goal with
           | H : _ || _ = false |- _ => apply orb_false_elim in H; destruct H
           | H : negb _ = false |- _ => apply negb_false_iff in H
           end.
    match goal with
    | H : String.eqb _ _ = true |- _ => apply typeof_number in H; destruct H as [n ->]
    end.
    simpl in *. split; [exists n; auto | reflexivity].
  - intros [(n & -> & Hnan & Hint & Hlt) ->].
    unfold new, bind, throw_if. simpl. rewrite Hnan, Hint, Hlt. reflexivity.
Qed.

(** C9.  [SecurityCode] construction succeeds exactly when [code_2fa] is a
    number that is a non-negative integer; the constructed object then holds
    the input unchanged.  Every other input (a negative or fractional number,
    NaN, an infinity, a value that is not a number) is rejected. *)
Theorem security_code_nonneg_integer (code_2fa : value) :
  (forall v, new C_Security (TwoFactor._Security code_2fa) = Ok v ->
             (exists n z, code_2fa = VNum n /\ denotes n z /\ (0 <= z)%Z)
             /\ get v "code_2fa" = Ok code_2fa)
  /\ (forall n z, code_2fa = VNum n -> denotes n z -> (0 <= z)%Z ->
                  new C_Security (TwoFactor._Security code_2fa)
                  = Ok (VObj C_Security {["code_2fa" := code_2fa]}))
  /\ (~ (exists n z, code_2fa = VNum n /\ denotes n z /\ (0 <= z)%Z) ->
      fails (new C_Security (TwoFactor._Security code_2fa))).
Proof.
  split; [| split].
  - intros v H. apply Security_Ok in H. destruct H as [(n & -> & Hnan & Hint & Hlt) ->].
    split.
    + destruct (integer_nonneg_denotes n Hnan Hint Hlt) as (z & Hd & Hz).
      exists n, z. auto.
    + reflexivity.
  - intros n z -> Hd Hz. apply Security_Ok.
    destruct (denotes_nonneg_integer n z Hd Hz) as (? & ? & ?).
    split; [exists n; auto | reflexivity].
  - intros Hneg. apply fails_not_succeeds. intros [v H].
    apply Security_Ok in H. destruct H as [(n & -> & Hnan & Hint & Hlt) _].
    destruct (integer_nonneg_denotes n Hnan Hint Hlt) as (z & Hd & Hz).
    apply Hneg. exists n, z. auto.
Qed.

(** ** Strings: [trim] and blank strings *)

Lemma trimStart_nil s : trimStart s = [] <-> whitespace_only s = true.
Proof.
  unfold whitespace_only. induction s as [| c s IH]; simpl.
  - tauto.
  - destruct (is_white_space c); simpl; [exact IH |].
    split; discriminate.
Qed.

Lemma trimStart_suffix s : exists p, s = p ++ trimStart s /\ whitespace_only p = true.
Proof.
  induction s as [| c s (p & IH & Hp)]; simpl.
  - exists []. auto.
  - destruct (is_white_space c) eqn:Hc.
    + exists (c :: p). simpl. unfold whitespace_only in *. simpl.
      rewrite Hc, Hp. split; [congruence | reflexivity].
    + exists []. auto.
Qed.

Lemma whitespace_only_rev s : whitespace_only (rev s) = whitespace_only s.
Proof.
  unfold whitespace_only. apply eq_true_iff_eq.
  rewrite !forallb_forall. split; intros H x Hx; apply H.
  - apply in_rev in Hx. exact Hx.
  - apply in_rev. exact Hx.
Qed.

Lemma whitespace_only_app s t :
  whitespace_only (s ++ t) = whitespace_only s && whitespace_only t.
Proof. apply forallb_app. Qed.

(** [s.trim() === ''] holds exactly for the strings made of white space. *)
Lemma trim_empty s : is_empty (trim s) = whitespace_only s.
Proof.
  apply eq_true_iff_eq. unfold trim, trimEnd.
  destruct (trimStart_suffix s) as (p & Hs & Hp).
  assert (Hw : whitespace_only s = whitespace_only (trimStart s)).
  { rewrite Hs at 1. rewrite whitespace_only_app, Hp. reflexivity. }
  rewrite Hw. split.
  - intros H. destruct (rev (trimStart (rev (trimStart s)))) as [| ? ?] eqn:E;
      [| discriminate].
    apply (f_equal (@rev _)) in E. rewrite rev_involutive in E. simpl in E.
    apply trimStart_nil in E. rewrite whitespace_only_rev in E. exact E.
  - intros H. rewrite <- whitespace_only_rev in H. apply trimStart_nil in H.
    rewrite H. reflexivity.
Qed.

Lemma not_nonblank_string_false v :
  not_nonblank_string v = false <->
  exists s, v = VStr s /\ whitespace_only s = false.
Proof.
  unfold not_nonblank_string. rewrite orb_false_iff, negb_false_iff, typeof_string.
  split.
  - intros [[s ->] H]. simpl in H. rewrite trim_empty in H. eauto.
  - intros (s & -> & H). split; [eauto |]. simpl. rewrite trim_empty. exact H.
Qed.

Lemma not_nonempty_string_false v :
  not_nonempty_string v = false <-> exists s, v = VStr s /\ s <> [].
Proof.
  unfold not_nonempty_string.
  rewrite orb_false_iff, !negb_false_iff, typeof_string. split.
  - intros [Ht [s ->]]. exists s. split; [reflexivity |].
    intros ->. discriminate.
  - intros (s & -> & Hs). split; [| eauto].
    destruct s; [contradiction | reflexivity].
Qed.

(** ** Regular expressions: the matcher decides the language *)

Section RegExpFacts.
Import RegExp.

Lemma Lang_Void_inv s : ~ Lang Void s.
Proof. intros H. inversion H. Qed.

Lemma Lang_Eps_inv s : Lang Eps s <-> s = [].
Proof. split; [intros H; inversion H; reflexivity | intros ->; constructor]. Qed.

Lemma Lang_Set_inv neg items s :
  Lang (Set_ neg items) s <-> exists c, s = [c] /\ class_mem neg items c = true.
Proof.
  split.
  - intros H. inversion H; subst. eauto.
  - intros (c & -> & H). constructor. exact H.
Qed.

Lemma Lang_Cat_inv r1 r2 s :
  Lang (Cat r1 r2) s <->
  exists s1 s2, s = s1 ++ s2 /\ Lang r1 s1 /\ Lang r2 s2.
Proof.
  split.
  - intros H. inversion H; subst. eauto.
  - intros (s1 & s2 & -> & H1 & H2). constructor; assumption.
Qed.

Lemma Lang_Alt_inv r1 r2 s : Lang (Alt r1 r2) s <-> Lang r1 s \/ Lang r2 s.
Proof.
  split.
  - intros H. inversion H; subst; auto.
  - intros [H | H]; [apply LAltL | apply LAltR]; exact H.
Qed.

(** A non-empty word of [r*] starts with a non-empty word of [r]. *)
Lemma Lang_Star_cons r c s :
  Lang (Star r) (c :: s) ->
  exists s1 s2, s = s1 ++ s2 /\ Lang r (c :: s1) /\ Lang (Star r) s2.
Proof.
  intros H. remember (Star r) as r' eqn:Er. remember (c :: s) as w eqn:Ew.
  revert c s Ew. induction H as [| | | | | r0 | r0 s1 s2 H1 _ H2 IH2];
    intros c' s' Ew; try discriminate.
  injection Er as ->. destruct s1 as [| c1 s1]; simpl in Ew.
  - apply IH2; [reflexivity | exact Ew].
  - injection Ew as -> <-. exists s1, s2. auto.
Qed.

Lemma nullable_spec r : nullable r = true <-> Lang r [].
Proof.
  induction r as [| | neg items | r1 IH1 r2 IH2 | r1 IH1 r2 IH2 | r IH]; simpl.
  - split; [discriminate | intros H; inversion H].
  - split; [constructor | reflexivity].
  - split; [discriminate | intros H; inversion H].
  - rewrite andb_true_iff, IH1, IH2, Lang_Cat_inv. split.
    + intros [H1 H2]. exists [], []. auto.
    + intros (s1 & s2 & E & H1 & H2). symmetry in E.
      apply app_eq_nil in E. destruct E as [-> ->]. auto.
  - rewrite orb_true_iff, IH1, IH2, Lang_Alt_inv. tauto.
  - split; [constructor | reflexivity].
Qed.

Lemma deriv_spec c r s : Lang (deriv c r) s <-> Lang r (c :: s).
Proof.
  revert s.
  induction r as [| | neg items | r1 IH1 r2 IH2 | r1 IH1 r2 IH2 | r IH];
    intros s; simpl.
  - split; intros H; inversion H.
  - split; intros H; inversion H.
  - rewrite Lang_Set_inv. destruct (class_mem neg items c) eqn:Hc.
    + rewrite Lang_Eps_inv. split.
      * intros ->. eauto.
      * intros (c' & [= <- ->] & _). reflexivity.
    + split; [intros H; inversion H |].
      intros (c' & [= <- ->] & H). congruence.
  - assert (Hcat : Lang (Cat (deriv c r1) r2) s <->
                   exists s1 s2, s = s1 ++ s2 /\ Lang r1 (c :: s1) /\ Lang r2 s2).
    { rewrite Lang_Cat_inv. split; intros (s1 & s2 & E & H1 & H2);
        exists s1, s2; (split; [exact E |]); (split; [apply IH1; exact H1 | exact H2]). }
    rewrite (Lang_Cat_inv r1 r2).
    destruct (nullable r1) eqn:Hn.
    + rewrite Lang_Alt_inv, Hcat, IH2. apply nullable_spec in Hn. split.
      * intros [(s1 & s2 & -> & H1 & H2) | H].
        -- exists (c :: s1), s2. auto.
        -- exists [], (c :: s). auto.
      * intros (s1 & s2 & E & H1 & H2). destruct s1 as [| c1 s1]; simpl in E.
        -- right. rewrite E. exact H2.
        -- injection E as <- ->. left. eauto.
    + rewrite Hcat. split.
      * intros (s1 & s2 & -> & H1 & H2). exists (c :: s1), s2. auto.
      * intros (s1 & s2 & E & H1 & H2). destruct s1 as [| c1 s1]; simpl in E.
        -- apply nullable_spec in H1. congruence.
        -- injection E as <- ->. eauto.
  - rewrite !Lang_Alt_inv, IH1, IH2. tauto.
  - rewrite Lang_Cat_inv. split.
    + intros (s1 & s2 & -> & H1 & H2). apply IH in H1.
      change (c :: s1 ++ s2) with ((c :: s1) ++ s2). constructor; assumption.
    + intros H. apply Lang_Star_cons in H.
      destruct H as (s1 & s2 & -> & H1 & H2). exists s1, s2.
      split; [reflexivity |]. split; [apply IH; exact H1 | exact H2].
Qed.

(** [test] decides membership in the language of the pattern. *)
Lemma test_spec r s : test r s = true <-> Lang r s.
Proof.
  revert r. induction s as [| c s IH]; intros r; simpl.
  - apply nullable_spec.
  - rewrite IH. apply deriv_spec.
Qed.

(** Words of [[class]*] and [[class]+]. *)
Lemma Lang_Star_Set neg items s :
  Lang (Star (Set_ neg items)) s <->
  Forall (fun c => class_mem neg items c = true) s.
Proof.
  split.
  - induction s as [| c s IH]; intros H; [constructor |].
    apply Lang_Star_cons in H. destruct H as (s1 & s2 & -> & H1 & H2).
    apply Lang_Set_inv in H1. destruct H1 as (c' & [= <- ->] & Hc).
    constructor; [exact Hc | apply IH; exact H2].
  - induction 1 as [| c s Hc _ IH]; [constructor |].
    change (c :: s) with ([c] ++ s). constructor; [| exact IH].
    constructor. exact Hc.
Qed.

Lemma Lang_Plus_Set neg items s :
  Lang (Plus (Set_ neg items)) s <->
  s <> [] /\ Forall (fun c => class_mem neg items c = true) s.
Proof.
  unfold Plus. rewrite Lang_Cat_inv. split.
  - intros (s1 & s2 & -> & H1 & H2). apply Lang_Set_inv in H1.
    destruct H1 as (c & -> & Hc). apply Lang_Star_Set in H2.
    split; [discriminate |]. constructor; assumption.
  - intros [Hne H]. destruct H as [| c s Hc Hs]; [contradiction |].
    exists [c], s. split; [reflexivity |]. split.
    + constructor. exact Hc.
    + apply Lang_Star_Set. exact Hs.
Qed.

Lemma Lang_Chr a s : Lang (Chr a) s <-> s = [chr a].
Proof.
  unfold Chr. rewrite Lang_Set_inv. unfold class_mem. simpl. split.
  - intros (c & -> & H). rewrite orb_false_r in H.
    apply N.eqb_eq in H. congruence.
  - intros ->. exists (chr a). rewrite N.eqb_refl. auto.
Qed.

End RegExpFacts.

(** ** Authentication token *)

Section AuthToken.
Import RegExp Web3Request.

Lemma dot_is_tail_char : tail_char (chr ".").
Proof. reflexivity. Qed.

(** The token pattern accepts exactly the strings of [token_shape]. *)
Lemma jwt_regex_shape s : test jwt_regex s = true <-> token_shape s.
Proof.
  rewrite test_spec. unfold jwt_regex, token_shape, Opt.
  rewrite Lang_Cat_inv. split.
  - intros (a & s1 & -> & Ha & H). apply Lang_Plus_Set in Ha.
    apply Lang_Cat_inv in H. destruct H as (d & s2 & -> & Hd & H).
    apply Lang_Chr in Hd. subst d.
    apply Lang_Cat_inv in H. destruct H as (b & s3 & -> & Hb & H).
    apply Lang_Plus_Set in Hb.
    apply Lang_Cat_inv in H. destruct H as (o & t & -> & Ho & Ht).
    apply Lang_Star_Set in Ht. exists a, b, (o ++ t).
    split; [reflexivity |]. destruct Ha, Hb. repeat (split; [assumption |]).
    apply Lang_Alt_inv in Ho. destruct Ho as [Ho | Ho].
    + apply Lang_Chr in Ho. subst o. constructor; [exact dot_is_tail_char | exact Ht].
    + apply Lang_Eps_inv in Ho. subst o. exact Ht.
  - intros (a & b & rest & -> & Ha & Hb & Fa & Fb & Fr).
    exists a, (chr "." :: b ++ rest). split; [reflexivity |].
    split; [apply Lang_Plus_Set; auto |].
    apply Lang_Cat_inv. exists [chr "."], (b ++ rest).
    split; [reflexivity |]. split; [apply Lang_Chr; reflexivity |].
    apply Lang_Cat_inv. exists b, rest.
    split; [reflexivity |]. split; [apply Lang_Plus_Set; auto |].
    apply Lang_Cat_inv. exists [], rest.
    split; [reflexivity |]. split; [apply LAltR; constructor |].
    apply Lang_Star_Set. exact Fr.
Qed.

Lemma token_shape_nonempty s : token_shape s -> s <> [].
Proof. intros (a & b & rest & -> & _) H. destruct a; discriminate. Qed.

Lemma Data_Ok token v :
  new C_Data (_Data token) = Ok v <->
  (exists s, token = VStr s /\ token_shape s)
  /\ v = VObj C_Data {["token" := token]}.
Proof.
  unfold _Data. split.
  - intros H. ctor_inv H.
    match goal with
    | H : _ || _ = false |- _ => apply not_nonempty_string_false in H;
                                 destruct H as (s & -> & _)
    end.
    match goal with
    | H : negb _ = false |- _ => apply negb_false_iff, jwt_regex_shape in H
    end.
    split; [eauto | reflexivity].
  - intros [(s & -> & Hs) ->].
    pose proof (token_shape_nonempty s Hs) as Hne.
    apply jwt_regex_shape in Hs.
    unfold new, bind, throw_if. simpl. rewrite Hs.
    destruct s; [contradiction | reflexivity].
Qed.

End AuthToken.

(** C1 (as amended).  A token is accepted exactly when it is a string made
    of two non-empty segments over [[A-Za-z0-9-_=]] separated by a dot and
    followed by any run of characters of [[A-Za-z0-9-_.+/=]]; every other
    value is rejected.  ["not-a-jwt"] is rejected and ["aaa.bbb.ccc"] is
    accepted and stored unchanged. *)
Theorem auth_token_accepts_token_shape :
  (forall token,
      ~ (exists s, token = VStr s /\ token_shape s) ->
      fails (new C_Data (Web3Request._Data token)))
  /\ (forall s,
         token_shape s ->
         new C_Data (Web3Request._Data (VStr s))
         = Ok (VObj C_Data {["token" := VStr s]}))
  /\ fails (new C_Data (Web3Request._Data (str "not-a-jwt")))
  /\ new C_Data (Web3Request._Data (str "aaa.bbb.ccc"))
     = Ok (VObj C_Data {["token" := str "aaa.bbb.ccc"]}).
Proof.
  split; [| split; [| split]].
  - intros token Hn. apply fails_not_succeeds. intros [v H].
    apply Data_Ok in H. destruct H as [H _]. exact (Hn H).
  - intros s Hs. apply Data_Ok. eauto.
  - eexists. vm_compute. reflexivity.
  - vm_compute. reflexivity.
Qed.

Example three_segments_jwt : three_segments (lit "aaa.bbb.ccc") = true.
Proof. reflexivity. Qed.

(** Counterexample to C1 as stated: ["aaa.bbb"] has two segments only, and
    the constructor accepts it. *)
Lemma auth_token_two_segments_accepted :
  three_segments (lit "aaa.bbb") = false
  /\ new C_Data (Web3Request._Data (str "aaa.bbb"))
     = Ok (VObj C_Data {["token" := str "aaa.bbb"]}).
Proof. split; vm_compute; reflexivity. Qed.

Lemma auth_token_accepts_token_shape_witness :
  new C_Data (Web3Request._Data (str "aaa.bbb.ccc"))
  = Ok (VObj C_Data {["token" := str "aaa.bbb.ccc"]})
  /\ fails (new C_Data (Web3Request._Data (VNum (num 42)))).
Proof.
  split.
  - apply (proj1 (proj2 auth_token_accepts_token_shape) (lit "aaa.bbb.ccc")).
    exists (lit "aaa"), (lit "bbb"), (lit ".ccc").
    split; [reflexivity |].
    split; [discriminate |]. split; [discriminate |].
    repeat split; repeat constructor.
  - apply (proj1 auth_token_accepts_token_shape (VNum (num 42))).
    intros (s & H & _). discriminate.
Defined.

(** ** Objects and fields *)

Lemma field_insert o k v : field (<[k := v]> o) k = v.
Proof. unfold field. rewrite lookup_insert_eq. reflexivity. Qed.

Lemma field_insert_ne o k k' v : k <> k' -> field (<[k := v]> o) k' = field o k'.
Proof. intros H. unfold field. rewrite lookup_insert_ne by exact H. reflexivity. Qed.

Lemma get_with_field c o k v : get (with_field (VObj c o) k v) k = Ok v.
Proof. simpl. rewrite field_insert. reflexivity. Qed.

Lemma get_with_field_ne c o k k' v :
  k <> k' -> get (with_field (VObj c o) k v) k' = get (VObj c o) k'.
Proof. intros H. simpl. rewrite field_insert_ne by exact H. reflexivity. Qed.

(** A value with a string-valued or array-valued field is not [null] or a
    primitive. *)
Lemma get_VStr_object v k s :
  k <> "length" -> get v k = Ok (VStr s) -> exists c o, v = VObj c o.
Proof.
  intros Hk. destruct v; simpl; try discriminate; eauto;
    destruct (String.eqb_spec k "length"); try contradiction; discriminate.
Qed.

(** ** [Array.prototype.map] with a validating callback *)

Lemma array_map_validator_Ok f l this r :
  validator f ->
  array_map f l this = Ok r ->
  r = (l, this) /\ Forall (fun x => f x this = Ok (x, this)) l.
Proof.
  intros Hf. revert r. induction l as [| x l IH]; simpl; intros r H.
  - apply ret_Ok in H. auto.
  - apply bind_Ok in H. destruct H as (y & this1 & Hx & H).
    pose proof (Hf _ _ _ Hx) as E. injection E as -> ->.
    apply bind_Ok in H. destruct H as (ys & this2 & Hl & H).
    apply IH in Hl. destruct Hl as [[= -> ->] Hall].
    apply ret_Ok in H. subst r. split; [reflexivity |].
    constructor; assumption.
Qed.

Lemma array_map_validator_all f l this :
  Forall (fun x => f x this = Ok (x, this)) l ->
  array_map f l this = Ok (l, this).
Proof.
  induction 1 as [| x l Hx _ IH]; simpl; [reflexivity |].
  unfold bind at 1. rewrite Hx. unfold bind at 1. rewrite IH. reflexivity.
Qed.

Lemma array_map_fails_at f l this x :
  validator f -> In x l -> fails (f x this) -> fails (array_map f l this).
Proof.
  intros Hf Hin Hx. apply fails_not_succeeds. intros [r H].
  apply (array_map_validator_Ok _ _ _ _ Hf) in H. destruct H as [_ Hall].
  rewrite Forall_forall in Hall. apply list_elem_of_In in Hin.
  specialize (Hall x Hin).
  destruct Hx as [e He]. congruence.
Qed.

(** A callback that only computes a value leaves [this] alone. *)
Lemma array_map_lift_this (g : value -> result value) l this r :
  array_map (fun x => lift (g x)) l this = Ok r -> snd r = this.
Proof.
  revert r. induction l as [| x l IH]; simpl; intros r H.
  - apply ret_Ok in H. subst r. reflexivity.
  - apply bind_Ok in H. destruct H as (y & this1 & Hx & H).
    apply lift_Ok in Hx. destruct Hx as (? & _ & [= -> ->]).
    apply bind_Ok in H. destruct H as (ys & this2 & Hl & H).
    apply IH in Hl. simpl in Hl. subst this2.
    apply ret_Ok in H. subst r. reflexivity.
Qed.

(** ** Wallet identity *)

Lemma Web3_Entity_Ok entity v :
  new C_Web3_Entity (Web3._Entity entity) = Ok v <->
  exists w p l,
    get entity "walletId" = Ok (VStr w) /\ whitespace_only w = false /\
    get entity "publicKey" = Ok (VStr p) /\ whitespace_only p = false /\
    get entity "balance" = Ok (VArr l) /\
    v = VObj C_Web3_Entity (<["publicKey" := VStr p]> (<["walletId" := VStr w]> ∅)).
Proof.
  unfold Web3._Entity. split.
  - intros H. ctor_inv H.
    repeat match goal with
           | H : not_nonblank_string _ = false |- _ =>
               apply not_nonblank_string_false in H; destruct H as (? & -> & ?)
           | H : negb (Array_isArray ?b) = false |- _ =>
               apply negb_false_iff in H; destruct b; try discriminate
           end.
    eauto 10.
  - intros (w & p & l & Hw & Hwn & Hp & Hpn & Hb & ->).
    assert (Bw : not_nonblank_string (VStr w) = false)
      by (apply not_nonblank_string_false; eauto).
    assert (Bp : not_nonblank_string (VStr p) = false)
      by (apply not_nonblank_string_false; eauto).
    unfold new, bind, lift, throw_if, assign, ret.
    rewrite Hw, Bw, Hp, Bp, Hb. reflexivity.
Qed.

(** C2 (code defect).  Every accepted wallet identity reads back the
    [walletId] and [publicKey] of its input, but its [balance] is never
    assigned: the input holds an array there, the constructed object holds
    [undefined]. *)
Theorem wallet_identity_balance_unpopulated entity v :
  new C_Web3_Entity (Web3._Entity entity) = Ok v ->
  get v "walletId" = get entity "walletId"
  /\ get v "publicKey" = get entity "publicKey"
  /\ get v "balance" = Ok VUndefined
  /\ exists l, get entity "balance" = Ok (VArr l).
Proof.
  intros H. apply Web3_Entity_Ok in H.
  destruct H as (w & p & l & Hw & _ & Hp & _ & Hb & ->).
  rewrite Hw, Hp. simpl.
  rewrite field_insert_ne, field_insert by discriminate.
  rewrite field_insert. repeat split; eauto.
Qed.

Lemma wallet_identity_balance_unpopulated_witness :
  exists v,
    new C_Web3_Entity (Web3._Entity wallet) = Ok v
    /\ get wallet "balance" = Ok (VArr [])
    /\ get v "balance" = Ok VUndefined.
Proof.
  eexists. split; [vm_compute; reflexivity |].
  split; [reflexivity |].
  refine (proj1 (proj2 (proj2
    (wallet_identity_balance_unpopulated wallet _ _)))).
  vm_compute. reflexivity.
Defined.

(** ** Second factor state *)

(** C3 (code defect).  The members of [IStatus] are strings, and the
    constructor asks for [typeof status === 'object']: with a status drawn
    from the enum, construction throws whatever the other arguments are. *)
Theorem second_factor_state_rejects_enum_status
        (st : TwoFactor.IStatus) (factorSid identity qr_code : value) :
  new C_Auth (TwoFactor._Auth (TwoFactor.IStatus_value st)
                              factorSid identity qr_code)
  = Throw (Error "status must be a valid IAuth.ITwoFactor.IStatus object").
Proof. destruct st; reflexivity. Qed.

(** With a status that is an object the remaining checks decide: the three
    strings have to be non-blank, and the four arguments are stored. *)
Lemma second_factor_state_accepts_object_status c o f i q :
  whitespace_only f = false -> whitespace_only i = false ->
  whitespace_only q = false ->
  new C_Auth (TwoFactor._Auth (VObj c o) (VStr f) (VStr i) (VStr q))
  = Ok (VObj C_Auth (<["qr_code" := VStr q]>
                     (<["identity" := VStr i]>
                      (<["factorSid" := VStr f]>
                       (<["status" := VObj c o]> ∅))))).
Proof.
  intros Hf Hi Hq. unfold TwoFactor._Auth. ctor_run;
    apply not_nonblank_string_false; eauto.
Qed.

(** ** Token gate *)

Lemma typeof_boolean v :
  String.eqb (typeof v) "boolean" = true <-> exists b, v = VBool b.
Proof.
  destruct v; simpl; split; try discriminate; eauto; intros [? ?]; discriminate.
Qed.

Lemma Role_Ok c role v :
  new c (TokenGate._Role role) = Ok v <->
  exists t r,
    get role "tokenId" = Ok (VStr t) /\ t <> [] /\
    get role "role" = Ok (VStr r) /\ r <> [] /\
    v = VObj c (<["role" := VStr r]> (<["tokenId" := VStr t]> ∅)).
Proof.
  unfold TokenGate._Role. split.
  - intros H. ctor_inv H.
    repeat match goal with
           | H : not_nonempty_string _ = false |- _ =>
               apply not_nonempty_string_false in H; destruct H as (? & -> & ?)
           end.
    eauto 10.
  - intros (t & r & Ht & Htn & Hr & Hrn & ->).
    assert (Bt : not_nonempty_string (VStr t) = false)
      by (apply not_nonempty_string_false; eauto).
    assert (Br : not_nonempty_string (VStr r) = false)
      by (apply not_nonempty_string_false; eauto).
    unfold new, bind, lift, throw_if, assign, ret.
    rewrite Ht, Bt, Hr, Br. reflexivity.
Qed.

(** The callback of [options.roles.map] in [_Options]. *)
Lemma check_role_validator :
  validator (fun role =>
               throw_if (negb (instanceof role C_Role))
                        "Each role must be an instance of _IRole" ;;
               ret role).
Proof.
  intros x this r H. apply bind_Ok in H. destruct H as (? & ? & H1 & H2).
  apply throw_if_Ok in H1. destruct H1 as [_ E]. simplify_eq.
  apply ret_Ok in H2. exact H2.
Qed.

Lemma Options_Ok options v :
  new C_Options (TokenGate._Options options) = Ok v <->
  exists b roles,
    get options "enabled" = Ok (VBool b) /\
    get options "roles" = Ok (VArr roles) /\ roles <> [] /\
    Forall (fun role => instanceof role C_Role = true) roles /\
    v = VObj C_Options (<["roles" := VArr roles]> (<["enabled" := VBool b]> ∅)).
Proof.
  unfold TokenGate._Options. split.
  - intros H. ctor_inv H.
    match goal with
    | H : negb (String.eqb _ _) = false |- _ =>
        apply negb_false_iff, typeof_boolean in H; destruct H as [b ->]
    end.
    match goal with
    | H : negb (Array_isArray ?a) || _ = false |- _ =>
        apply orb_false_elim in H; destruct H as [Ha Hl];
        apply negb_false_iff in Ha; destruct a as [| | | | | roles |];
        try discriminate
    end.
    match goal with
    | H : array_map _ _ _ = Ok _ |- _ =>
        apply (array_map_validator_Ok _ _ _ _ check_role_validator) in H;
        destruct H as [[= -> ->] Hall]
    end.
    simpl in *. exists b, roles. repeat split; try assumption.
    + intros ->. discriminate.
    + eapply Forall_impl; [exact Hall |]. intros role Hr. simpl in Hr.
      apply bind_Ok in Hr. destruct Hr as (? & ? & Hr & _).
      apply throw_if_Ok in Hr. destruct Hr as [Hr _].
      apply negb_false_iff in Hr. exact Hr.
  - intros (b & roles & He & Hr & Hne & Hall & ->).
    unfold new, bind at 1, lift. rewrite He.
    unfold bind at 1. simpl throw_if. unfold ret at 1.
    unfold bind at 1, assign at 1.
    unfold bind at 1. rewrite Hr.
    unfold bind at 1. simpl Array_isArray. simpl as_array.
    destruct roles as [| r0 roles']; [contradiction |].
    simpl throw_if. unfold ret at 1.
    unfold bind at 1. rewrite array_map_validator_all.
    + reflexivity.
    + eapply Forall_impl; [exact Hall |]. intros role Hi. simpl in Hi.
      unfold bind, throw_if. rewrite Hi. reflexivity.
Qed.

(** C4 (as amended).  With [enabled: true] an empty role list is rejected
    with the "non-empty array" error; a non-empty list of [_Role] instances
    (for example the one built from [{tokenId: "0x1", role: "member"}]) is
    accepted and stored; a list holding the plain record itself is rejected,
    because every element has to be an instance of [_Role]. *)
Theorem token_gate_options_need_role_instances :
  new C_Options (TokenGate._Options
                   (record [("enabled", VBool true); ("roles", VArr [])]))
  = Throw (Error "roles must be a non-empty array")
  /\ (forall enabled roles,
         roles <> [] ->
         Forall (fun role => instanceof role C_Role = true) roles ->
         new C_Options (TokenGate._Options
                          (record [("enabled", VBool enabled);
                                   ("roles", VArr roles)]))
         = Ok (VObj C_Options (<["roles" := VArr roles]>
                               (<["enabled" := VBool enabled]> ∅))))
  /\ (exists role,
         new C_Role (TokenGate._Role member_role) = Ok role
         /\ succeeds (new C_Options
                        (TokenGate._Options
                           (record [("enabled", VBool true);
                                    ("roles", VArr [role])]))))
  /\ (forall options roles role,
         get options "roles" = Ok (VArr roles) ->
         In role roles -> instanceof role C_Role = false ->
         fails (new C_Options (TokenGate._Options options))).
Proof.
  split; [reflexivity |]. split; [| split].
  - intros enabled roles Hne Hall. apply Options_Ok.
    exists enabled, roles. repeat split; assumption.
  - eexists. split; [vm_compute; reflexivity |].
    eexists. vm_compute. reflexivity.
  - intros options roles role Hr Hin Hi. apply fails_not_succeeds.
    intros [v H]. apply Options_Ok in H.
    destruct H as (b & roles' & _ & Hr' & _ & Hall & _).
    rewrite Hr in Hr'. injection Hr' as <-.
    rewrite Forall_forall in Hall. apply list_elem_of_In in Hin.
    specialize (Hall role Hin). congruence.
Qed.

(** Counterexample to C4 as stated: the plain record is not an instance of
    [_Role], and the list that holds it is rejected. *)
Lemma token_gate_options_plain_role_rejected :
  new C_Options (TokenGate._Options
                   (record [("enabled", VBool true);
                            ("roles", VArr [member_role])]))
  = Throw (Error "Each role must be an instance of _IRole").
Proof. vm_compute. reflexivity. Qed.

Lemma token_gate_options_need_role_instances_witness :
  (exists v,
      new C_Options (TokenGate._Options
                       (record [("enabled", VBool false);
                                ("roles", VArr [VObj C_TokenGate_Role ∅])]))
      = Ok v)
  /\ fails (new C_Options (TokenGate._Options
                             (record [("enabled", VBool true);
                                      ("roles", VArr [member_role])]))).
Proof.
  split.
  - eexists.
    apply (proj1 (proj2 token_gate_options_need_role_instances)).
    + discriminate.
    + repeat constructor.
  - apply (proj2 (proj2 (proj2 token_gate_options_need_role_instances))
             _ [member_role] member_role).
    + reflexivity.
    + left. reflexivity.
    + reflexivity.
Defined.

(** ** User identity *)

Section UserEntity.
Import User.

Lemma includes_IType v :
  includes IType_values v = true <-> exists t, v = VStr (IType_value t).
Proof.
  unfold includes, IType_values. split.
  - destruct v as [| | | | s | |]; try discriminate. simpl.
    unfold jsstring_eqb. rewrite orb_false_r, orb_true_iff, !bool_decide_eq_true.
    intros [-> | ->]; [exists WEB2 | exists WEB3]; reflexivity.
  - intros [[] ->]; reflexivity.
Qed.

Lemma includes_char_In s c : includes_char s c = true <-> In c s.
Proof.
  unfold includes_char. rewrite existsb_exists. split.
  - intros (x & Hx & E). apply N.eqb_eq in E. subst x. exact Hx.
  - intros H. exists c. split; [exact H | apply N.eqb_refl].
Qed.

Lemma check_tag_validator : validator check_tag.
Proof.
  intros x this r H. unfold check_tag in H. ctor_inv H. reflexivity.
Qed.

Lemma check_tag_Ok tag this :
  check_tag tag this = Ok (tag, this) <-> string_tag tag.
Proof.
  unfold check_tag, string_tag. split.
  - intros H. ctor_inv H.
    match goal with
    | H : _ || _ = false |- _ =>
        apply orb_false_elim in H; destruct H as [Hk Hv];
        apply negb_false_iff, typeof_string in Hk;
        apply negb_false_iff, typeof_string in Hv;
        destruct Hk as [k ->]; destruct Hv as [v' ->]
    end.
    eauto.
  - intros (k & v' & Hk & Hv). ctor_run.
Qed.

Lemma User_Entity_Ok entity v :
  new C_User_Entity (_Entity entity) = Ok v <->
  exists un em c u ty tags,
    get entity "username" = Ok (VStr un) /\ whitespace_only un = false /\
    get entity "email" = Ok (VStr em) /\ In (chr "@") em /\
    get entity "created_at" = Ok (VNum c) /\ le c zero = false /\
    get entity "updated_at" = Ok (VNum u) /\ lt u c = false /\
    get entity "type" = Ok (VStr (IType_value ty)) /\
    get entity "tags" = Ok (VArr tags) /\ Forall string_tag tags /\
    v = VObj C_User_Entity
          (<["tags" := VArr tags]>
             (<["type" := VStr (IType_value ty)]>
                (<["updated_at" := VNum u]>
                   (<["created_at" := VNum c]>
                      (<["email" := VStr em]>
                         (<["username" := VStr un]> ∅)))))).
Proof.
  unfold _Entity. split.
  - intros H. ctor_inv H.
    repeat match goal with
           | H : not_nonblank_string _ = false |- _ =>
               apply not_nonblank_string_false in H; destruct H as (? & -> & ?)
           | H : negb (includes _ _) = false |- _ =>
               apply negb_false_iff, includes_IType in H; destruct H as [? ->]
           | H : negb (Array_isArray ?a) = false |- _ =>
               apply negb_false_iff in H; destruct a; try discriminate; clear H
           | H : negb (String.eqb (typeof _) "string") || _ = false |- _ =>
               apply orb_false_elim in H; destruct H as [H ?];
               apply negb_false_iff, typeof_string in H; destruct H as [? ->]
           | H : negb (String.eqb (typeof _) "number") || _ = false |- _ =>
               apply orb_false_elim in H; destruct H as [H ?];
               apply negb_false_iff, typeof_number in H; destruct H as [? ->]
           | H : negb (includes_char _ _) = false |- _ =>
               apply negb_false_iff, includes_char_In in H
           | H : array_map _ _ _ = Ok _ |- _ =>
               apply (array_map_validator_Ok _ _ _ _ check_tag_validator) in H;
               destruct H as [? Hall]
           end.
    simplify_eq. simpl in *. do 6 eexists. repeat (split; [eassumption |]).
    split; [| reflexivity].
    eapply Forall_impl; [exact Hall |]. intros tag Ht. simpl in Ht.
    apply check_tag_Ok in Ht. exact Ht.
  - intros (un & em & c & u & ty & tags & Hun & Hunw & Hem & Hat & Hc & Hcp
            & Hu & Huc & Hty & Htags & Hall & ->).
    ctor_run.
    + apply not_nonblank_string_false. eauto.
    + simpl. apply includes_char_In in Hat. rewrite Hat. reflexivity.
    + simpl. exact Hcp.
    + simpl. exact Huc.
    + apply negb_false_iff, includes_IType. eauto.
    + apply array_map_validator_all. simpl.
      eapply Forall_impl; [exact Hall |]. intros tag Ht.
      apply check_tag_Ok. exact Ht.
Qed.

End UserEntity.

(** ** Comparison of numbers *)

Lemma SFcompare_antisym a b :
  SFcompare b a = option_map CompOpp (SFcompare a b).
Proof.
  destruct a as [sa | sa | | sa ma ea], b as [sb | sb | | sb mb eb]; simpl;
    try reflexivity;
    try (destruct sa; reflexivity); try (destruct sb; reflexivity);
    try (destruct sa, sb; reflexivity).
  destruct sa, sb; simpl; try reflexivity;
    rewrite (Z.compare_antisym ea eb); destruct (ea ?= eb)%Z; simpl;
    try reflexivity;
    rewrite (Pos.compare_cont_antisym ma mb Eq); reflexivity.
Qed.

(** Away from NaN the order is total: [not (b < a)] gives [a <= b]. *)
Lemma not_lt_le a b :
  isNaN a = false -> isNaN b = false -> lt b a = false -> le a b = true.
Proof.
  unfold lt, le, SFltb, SFleb. intros Na Nb.
  rewrite (SFcompare_antisym a b).
  destruct (SFcompare a b) as [c |] eqn:E.
  - destruct c; simpl; congruence.
  - destruct a, b; simpl in *; discriminate.
Qed.

Lemma not_le_zero_lt c :
  isNaN c = false -> le c zero = false -> lt zero c = true.
Proof.
  destruct c as [s | s | | s m e]; try destruct s; simpl; intros Hn Hle;
    first [discriminate | reflexivity].
Qed.

Lemma lt_not_NaN a b : lt a b = true -> isNaN a = false /\ isNaN b = false.
Proof. destruct a, b; simpl; try discriminate; auto. Qed.

(** ** User identity: e-mail, tags and timestamps *)

Section UserIdentity.
Import User.

Lemma User_Entity_object entity v :
  new C_User_Entity (_Entity entity) = Ok v -> exists c o, entity = VObj c o.
Proof.
  intros H. apply User_Entity_Ok in H.
  destruct H as (un & ? & ? & ? & ? & ? & Hun & _).
  apply get_VStr_object in Hun; [exact Hun | discriminate].
Qed.

(** The timestamps of an accepted user identity are ordered as soon as
    neither is NaN. *)
Lemma user_identity_timestamps_ordered entity v c u :
  new C_User_Entity (_Entity entity) = Ok v ->
  get entity "created_at" = Ok (VNum c) ->
  get entity "updated_at" = Ok (VNum u) ->
  isNaN c = false -> isNaN u = false ->
  lt zero c = true /\ le c u = true
  /\ get v "created_at" = Ok (VNum c) /\ get v "updated_at" = Ok (VNum u).
Proof.
  intros H Hc Hu Nc Nu. apply User_Entity_Ok in H.
  destruct H as (un & em & c' & u' & ty & tags & _ & _ & _ & _ & Hc' & Hcp
                 & Hu' & Huc & _ & _ & _ & ->).
  rewrite Hc in Hc'. rewrite Hu in Hu'. simplify_eq.
  split; [apply not_le_zero_lt; assumption |].
  split; [apply not_lt_le; assumption |].
  split; reflexivity.
Qed.

(** Inputs whose timestamps are out of order, or whose creation time is not
    positive, are rejected. *)
Lemma user_identity_rejects_unordered entity c u :
  get entity "created_at" = Ok (VNum c) ->
  get entity "updated_at" = Ok (VNum u) ->
  lt u c = true \/ le c zero = true ->
  fails (new C_User_Entity (_Entity entity)).
Proof.
  intros Hc Hu Hbad. apply fails_not_succeeds. intros [v H].
  apply User_Entity_Ok in H.
  destruct H as (un & em & c' & u' & ty & tags & _ & _ & _ & _ & Hc' & Hcp
                 & Hu' & Huc & _).
  rewrite Hc in Hc'. rewrite Hu in Hu'. simplify_eq.
  destruct Hbad; congruence.
Qed.

End UserIdentity.

(** C7 (code defect).  A creation time of NaN passes both timestamp checks
    ([NaN <= 0] and [updated_at < NaN] are false): the identity is accepted
    although [created_at > 0] and [updated_at >= created_at] do not hold of
    the stored values.  The same happens with an [updated_at] of NaN. *)
Theorem user_identity_accepts_NaN_timestamps :
  (exists v,
      new C_User_Entity
          (User._Entity (with_field john "created_at" (VNum NaN))) = Ok v
      /\ get v "created_at" = Ok (VNum NaN)
      /\ get v "updated_at" = Ok (VNum (num 1625184000000))
      /\ lt zero NaN = false
      /\ le NaN (num 1625184000000) = false)
  /\ (exists v,
         new C_User_Entity
             (User._Entity (with_field john "updated_at" (VNum NaN))) = Ok v
         /\ get v "created_at" = Ok (VNum (num 1625097600000))
         /\ get v "updated_at" = Ok (VNum NaN)
         /\ le (num 1625097600000) NaN = false).
Proof.
  split; eexists; (split; [vm_compute; reflexivity |]);
    repeat split; vm_compute; reflexivity.
Qed.

(** C5 (as amended).  A user identity is rejected when its e-mail is not a
    string that contains [@]; replacing the e-mail of an accepted identity
    by any string that contains [@] (such as ["john@example.com"]) gives an
    accepted identity that stores it, and the documented example is
    accepted. *)
Theorem user_identity_email_needs_at :
  (forall entity,
      ~ (exists email, get entity "email" = Ok email /\ contains_at email) ->
      fails (new C_User_Entity (User._Entity entity)))
  /\ (forall entity v s,
         new C_User_Entity (User._Entity entity) = Ok v ->
         In (chr "@") s ->
         exists v',
           new C_User_Entity
               (User._Entity (with_field entity "email" (VStr s))) = Ok v'
           /\ get v' "email" = Ok (VStr s))
  /\ (exists v,
         new C_User_Entity (User._Entity john) = Ok v
         /\ get v "email" = Ok (str "john@example.com")).
Proof.
  split; [| split].
  - intros entity Hn. apply fails_not_succeeds. intros [v H].
    apply User_Entity_Ok in H.
    destruct H as (un & em & c & u & ty & tags & _ & _ & Hem & Hat & _).
    apply Hn. exists (VStr em). split; [exact Hem |]. exists em. auto.
  - intros entity v s H Hs.
    destruct (User_Entity_object _ _ H) as (k & o & ->).
    apply User_Entity_Ok in H.
    destruct H as (un & em & c & u & ty & tags & Hun & Hunw & Hem & Hat & Hc
                   & Hcp & Hu & Huc & Hty & Htags & Hall & ->).
    eexists. split.
    + apply User_Entity_Ok. exists un, s, c, u, ty, tags.
      rewrite get_with_field.
      rewrite !get_with_field_ne by discriminate.
      repeat (split; [first [assumption | reflexivity] |]). reflexivity.
    + simpl. rewrite !field_insert_ne by discriminate.
      rewrite field_insert. reflexivity.
  - eexists. split; vm_compute; reflexivity.
Qed.

Example local_at_domain_john : local_at_domain (lit "john@example.com") = true.
Proof. reflexivity. Qed.

(** Counterexample to C5 as stated: ["joe@"] has no domain part and
    ["@example.com"] no local part, and both are accepted. *)
Lemma user_identity_accepts_half_emails :
  local_at_domain (lit "joe@") = false
  /\ succeeds (new C_User_Entity
                   (User._Entity (with_field john "email" (str "joe@"))))
  /\ local_at_domain (lit "@example.com") = false
  /\ succeeds (new C_User_Entity
                   (User._Entity
                      (with_field john "email" (str "@example.com")))).
Proof.
  repeat split; try (vm_compute; reflexivity);
    eexists; vm_compute; reflexivity.
Qed.

Lemma user_identity_email_needs_at_witness :
  fails (new C_User_Entity
             (User._Entity (with_field john "email" (str "joe"))))
  /\ exists v',
      new C_User_Entity
          (User._Entity (with_field john "email" (str "jane@example.com")))
      = Ok v'
      /\ get v' "email" = Ok (str "jane@example.com").
Proof.
  split.
  - apply (proj1 user_identity_email_needs_at).
    intros (email & Hget & s & -> & Hin).
    vm_compute in Hget. injection Hget as <-.
    vm_compute in Hin. intuition discriminate.
  - refine (proj1 (proj2 user_identity_email_needs_at) john _ _ _ _).
    + vm_compute. reflexivity.
    + vm_compute. tauto.
Defined.

(** C6 (as amended).  A user identity with a tag whose [key] or [value] is
    not a string is rejected, and the tags of an accepted identity are the
    tags of the input, each with a string [key] and a string [value]; the
    strings may be empty. *)
Theorem user_identity_tags_are_string_pairs :
  (forall entity tags tag,
      get entity "tags" = Ok (VArr tags) ->
      In tag tags -> ~ string_tag tag ->
      fails (new C_User_Entity (User._Entity entity)))
  /\ (forall entity v,
         new C_User_Entity (User._Entity entity) = Ok v ->
         exists tags,
           get entity "tags" = Ok (VArr tags)
           /\ get v "tags" = Ok (VArr tags)
           /\ Forall string_tag tags).
Proof.
  split.
  - intros entity tags tag Htags Hin Hbad. apply fails_not_succeeds.
    intros [v H]. apply User_Entity_Ok in H.
    destruct H as (un & em & c & u & ty & tags' & _ & _ & _ & _ & _ & _ & _
                   & _ & _ & Htags' & Hall & _).
    rewrite Htags in Htags'. injection Htags' as <-.
    rewrite Forall_forall in Hall. apply list_elem_of_In in Hin.
    exact (Hbad (Hall tag Hin)).
  - intros entity v H. apply User_Entity_Ok in H.
    destruct H as (un & em & c & u & ty & tags & _ & _ & _ & _ & _ & _ & _
                   & _ & _ & Htags & Hall & ->).
    exists tags. split; [exact Htags |]. split; [| exact Hall].
    simpl. rewrite field_insert. reflexivity.
Qed.

Example nonempty_tag_role :
  nonempty_tag (record [("key", str "role"); ("value", str "user")]).
Proof.
  exists (lit "role"), (lit "user"). repeat split; discriminate.
Qed.

(** Counterexample to C6 as stated: a tag with an empty key and an empty
    value is accepted and stored. *)
Lemma user_identity_accepts_empty_tag :
  ~ nonempty_tag (record [("key", str ""); ("value", str "")])
  /\ exists v,
      new C_User_Entity
          (User._Entity
             (with_field john "tags"
                (VArr [record [("key", str ""); ("value", str "")]])))
      = Ok v
      /\ get v "tags" = Ok (VArr [record [("key", str ""); ("value", str "")]]).
Proof.
  split.
  - intros (k & v & Hk & _ & Hne & _). vm_compute in Hk.
    injection Hk as <-. contradiction.
  - eexists. split; vm_compute; reflexivity.
Qed.

Lemma user_identity_tags_are_string_pairs_witness :
  fails (new C_User_Entity
             (User._Entity
                (with_field john "tags"
                   (VArr [record [("key", VNum (num 1));
                                  ("value", str "user")]]))))
  /\ exists tags,
      get john "tags" = Ok (VArr tags) /\ Forall string_tag tags.
Proof.
  split.
  - apply (proj1 user_identity_tags_are_string_pairs _
             [record [("key", VNum (num 1)); ("value", str "user")]]
             (record [("key", VNum (num 1)); ("value", str "user")])).
    + vm_compute. reflexivity.
    + left. reflexivity.
    + intros (k & v & Hk & _). vm_compute in Hk. discriminate.
  - edestruct (proj2 user_identity_tags_are_string_pairs john)
      as (tags & Ht & _ & Hall).
    + vm_compute. reflexivity.
    + exists tags. split; assumption.
Defined.

(** ** Traditional credentials *)

Section Web2Credentials.
Import RegExp Web2Dto.

Lemma email_class_char c :
  class_mem true [Space; Single "@"] c = true <-> email_char c.
Proof.
  unfold class_mem, email_char. simpl.
  destruct (is_white_space c); simpl.
  - split; [discriminate | intros [? _]; discriminate].
  - destruct (N.eqb_spec c (chr "@")) as [E | E]; simpl.
    + split; [discriminate | intros [_ ?]; contradiction].
    + tauto.
Qed.

Lemma Lang_Plus_email s :
  Lang (Plus email_class) s <-> s <> [] /\ Forall email_char s.
Proof.
  unfold email_class. rewrite Lang_Plus_Set. split; intros [Hne H];
    (split; [exact Hne |]); eapply Forall_impl; try exact H;
    intros c Hc; apply email_class_char; exact Hc.
Qed.

(** The e-mail pattern accepts exactly the strings of [email_shape]. *)
Lemma emailRegex_shape s : test emailRegex s = true <-> email_shape s.
Proof.
  rewrite test_spec. unfold emailRegex, email_shape.
  rewrite Lang_Cat_inv. split.
  - intros (l & s1 & -> & Hl & H). apply Lang_Plus_email in Hl.
    apply Lang_Cat_inv in H. destruct H as (a & s2 & -> & Ha & H).
    apply Lang_Chr in Ha. subst a.
    apply Lang_Cat_inv in H. destruct H as (d & s3 & -> & Hd & H).
    apply Lang_Plus_email in Hd.
    apply Lang_Cat_inv in H. destruct H as (p & t & -> & Hp & Ht).
    apply Lang_Chr in Hp. subst p. apply Lang_Plus_email in Ht.
    exists l, d, t. destruct Hl, Hd, Ht. auto 10.
  - intros (l & d & t & -> & Hl & Hd & Ht & Fl & Fd & Ft).
    exists l, (chr "@" :: d ++ chr "." :: t). split; [reflexivity |].
    split; [apply Lang_Plus_email; auto |].
    apply Lang_Cat_inv. exists [chr "@"], (d ++ chr "." :: t).
    split; [reflexivity |]. split; [apply Lang_Chr; reflexivity |].
    apply Lang_Cat_inv. exists d, (chr "." :: t).
    split; [reflexivity |]. split; [apply Lang_Plus_email; auto |].
    apply Lang_Cat_inv. exists [chr "."], t.
    split; [reflexivity |]. split; [apply Lang_Chr; reflexivity |].
    apply Lang_Plus_email. auto.
Qed.

Lemma Login_Ok login v :
  new C_Login (_Login login) = Ok v <->
  exists un em pw,
    get login "username" = Ok (VStr un) /\ whitespace_only un = false /\
    get login "email" = Ok (VStr em) /\ email_shape em /\
    get login "password" = Ok (VStr pw) /\ 8 <= length pw /\
    v = VObj C_Login
          (<["password" := VStr pw]>
             (<["email" := VStr em]> (<["username" := VStr un]> ∅))).
Proof.
  unfold _Login. split.
  - intros H. ctor_inv H.
    repeat match goal with
           | H : not_nonblank_string _ = false |- _ =>
               apply not_nonblank_string_false in H; destruct H as (? & -> & ?)
           | H : negb (String.eqb (typeof _) "string") || _ = false |- _ =>
               apply orb_false_elim in H; destruct H as [H ?];
               apply negb_false_iff, typeof_string in H; destruct H as [? ->]
           | H : negb (test _ _) = false |- _ =>
               apply negb_false_iff, emailRegex_shape in H
           | H : (_ <? _)%nat = false |- _ => apply Nat.ltb_ge in H
           end.
    simpl in *. eauto 12.
  - intros (un & em & pw & Hun & Hunw & Hem & Hsh & Hpw & Hlen & ->).
    ctor_run.
    + apply not_nonblank_string_false. eauto.
    + simpl. apply emailRegex_shape in Hsh. rewrite Hsh. reflexivity.
    + simpl. apply Nat.ltb_ge. exact Hlen.
Qed.

(** What an accepted signup input satisfies up to its password. *)
Lemma Signup_Ok_inv signup v :
  new C_Signup (_Signup signup) = Ok v ->
  exists un em pw,
    get signup "username" = Ok (VStr un) /\ whitespace_only un = false /\
    get signup "email" = Ok (VStr em) /\ email_shape em /\
    get signup "password" = Ok (VStr pw) /\ 8 <= length pw /\
    get v "password" = Ok (VStr pw).
Proof.
  unfold _Signup. intros H. ctor_inv H.
  repeat match goal with
         | H : not_nonblank_string _ = false |- _ =>
             apply not_nonblank_string_false in H; destruct H as (? & -> & ?)
         | H : negb (String.eqb (typeof _) "string") || _ = false |- _ =>
             apply orb_false_elim in H; destruct H as [H ?];
             apply negb_false_iff, typeof_string in H; destruct H as [? ->]
         | H : negb (test _ _) = false |- _ =>
             apply negb_false_iff, emailRegex_shape in H
         | H : (_ <? _)%nat = false |- _ => apply Nat.ltb_ge in H
         end.
  simpl in *. do 3 eexists. repeat (split; [eassumption |]).
  match goal with
  | H : array_map _ _ _ = Ok _ |- _ =>
      apply array_map_lift_this in H; simpl in H; subst
  end.
  rewrite field_insert_ne by discriminate.
  rewrite field_insert. reflexivity.
Qed.

End Web2Credentials.

(** C8.  For the login and the signup DTO alike, a password string of fewer
    than eight characters makes construction fail, and the password of
    every accepted DTO is a string of length at least eight, stored as
    given. *)
Theorem dto_password_min_length (dto : value) :
  (forall pw,
      get dto "password" = Ok (VStr pw) -> length pw < 8 ->
      fails (new C_Login (Web2Dto._Login dto))
      /\ fails (new C_Signup (Web2Dto._Signup dto)))
  /\ (forall v,
         new C_Login (Web2Dto._Login dto) = Ok v ->
         exists pw, get dto "password" = Ok (VStr pw)
                    /\ get v "password" = Ok (VStr pw) /\ 8 <= length pw)
  /\ (forall v,
         new C_Signup (Web2Dto._Signup dto) = Ok v ->
         exists pw, get dto "password" = Ok (VStr pw)
                    /\ get v "password" = Ok (VStr pw) /\ 8 <= length pw).
Proof.
  split; [| split].
  - intros pw Hpw Hlen. split; apply fails_not_succeeds; intros [v H].
    + apply Login_Ok in H.
      destruct H as (un & em & pw' & _ & _ & _ & _ & Hpw' & Hlen' & _).
      rewrite Hpw in Hpw'. simplify_eq. lia.
    + apply Signup_Ok_inv in H.
      destruct H as (un & em & pw' & _ & _ & _ & _ & Hpw' & Hlen' & _).
      rewrite Hpw in Hpw'. simplify_eq. lia.
  - intros v H. apply Login_Ok in H.
    destruct H as (un & em & pw & _ & _ & _ & _ & Hpw & Hlen & ->).
    exists pw. split; [exact Hpw |]. split; [| exact Hlen].
    simpl. rewrite field_insert. reflexivity.
  - intros v H. apply Signup_Ok_inv in H.
    destruct H as (un & em & pw & _ & _ & _ & _ & Hpw & Hlen & Hv).
    exists pw. auto.
Qed.

Lemma dto_password_min_length_witness :
  (fails (new C_Login
              (Web2Dto._Login (with_field login_john "password" (str "short"))))
   /\ fails (new C_Signup
                 (Web2Dto._Signup
                    (with_field login_john "password" (str "short")))))
  /\ (exists pw,
         get login_john "password" = Ok (VStr pw) /\ 8 <= length pw)
  /\ (exists pw,
         get signup_john "password" = Ok (VStr pw) /\ 8 <= length pw).
Proof.
  split; [| split].
  - apply (proj1 (dto_password_min_length
                    (with_field login_john "password" (str "short")))
             (lit "short")).
    + vm_compute. reflexivity.
    + vm_compute. lia.
  - edestruct (proj1 (proj2 (dto_password_min_length login_john)))
      as (pw & Hpw & _ & Hlen).
    + vm_compute. reflexivity.
    + exists pw. split; assumption.
  - edestruct (proj2 (proj2 (dto_password_min_length signup_john)))
      as (pw & Hpw & _ & Hlen).
    + vm_compute. reflexivity.
    + exists pw. split; assumption.
Defined.

Lemma security_code_nonneg_integer_witness :
  new C_Security (TwoFactor._Security (VNum (num 123456)))
  = Ok (VObj C_Security {["code_2fa" := VNum (num 123456)]})
  /\ new C_Security (TwoFactor._Security (VNum zero))
     = Ok (VObj C_Security {["code_2fa" := VNum zero]})
  /\ fails (new C_Security (TwoFactor._Security (str "123456")))
  /\ exists n z,
      VNum (num 7) = VNum n /\ denotes n z /\ (0 <= z)%Z.
Proof.
  split; [| split; [| split]].
  - apply (proj1 (proj2 (security_code_nonneg_integer (VNum (num 123456))))
             (num 123456) 123456%Z).
    + reflexivity.
    + vm_compute. reflexivity.
    + lia.
  - apply (proj1 (proj2 (security_code_nonneg_integer (VNum zero))) zero 0%Z).
    + reflexivity.
    + reflexivity.
    + lia.
  - apply (proj2 (proj2 (security_code_nonneg_integer (str "123456")))).
    intros (n & z & H & _). discriminate.
  - edestruct (proj1 (security_code_nonneg_integer (VNum (num 7)))) as [H _].
    + vm_compute. reflexivity.
    + exact H.
Defined.

(** Sample codes: 123456, 0 and -0 are accepted; -123, 0.5, NaN, Infinity
    and the string "123456" are rejected. *)
Example security_code_samples :
  succeeds (new C_Security (TwoFactor._Security (VNum (num 123456))))
  /\ succeeds (new C_Security (TwoFactor._Security (VNum (num 0))))
  /\ succeeds (new C_Security (TwoFactor._Security (VNum (S754_zero true))))
  /\ new C_Security (TwoFactor._Security (VNum (num (-123))))
     = Throw (Error "code_2fa must be a positive integer")
  /\ new C_Security
         (TwoFactor._Security (VNum (binary_normalize prec emax 1 (-1) false)))
     = Throw (Error "code_2fa must be a positive integer")
  /\ new C_Security (TwoFactor._Security (VNum NaN))
     = Throw (Error "code_2fa must be a positive integer")
  /\ new C_Security (TwoFactor._Security (VNum (S754_infinity false)))
     = Throw (Error "code_2fa must be a positive integer")
  /\ new C_Security (TwoFactor._Security (str "123456"))
     = Throw (Error "code_2fa must be a positive integer").
Proof.
  repeat split; try (eexists; vm_compute; reflexivity);
    vm_compute; reflexivity.
Qed.

(** ** Blank strings: roles against tags, metadata and user names *)

Section BlankStrings.
Import User TokenGate.

Lemma Tags_Ok_inv c tag v :
  new c (_Tags tag) = Ok v ->
  exists k x,
    get tag "key" = Ok (VStr k) /\ whitespace_only k = false /\
    get tag "value" = Ok (VStr x) /\ whitespace_only x = false.
Proof.
  unfold _Tags. intros H. ctor_inv H.
  repeat match goal with
         | H : not_nonblank_string _ = false |- _ =>
             apply not_nonblank_string_false in H; destruct H as (? & -> & ?)
         end.
  eauto 10.
Qed.

Lemma Metadata_Ok_inv c metadata v :
  new c (_Metadata metadata) = Ok v ->
  exists n d r i,
    get metadata "name" = Ok (VStr n) /\ whitespace_only n = false /\
    get metadata "description" = Ok (VStr d) /\ whitespace_only d = false /\
    get metadata "creator" = Ok (VStr r) /\ whitespace_only r = false /\
    get metadata "image" = Ok (VStr i) /\ whitespace_only i = false.
Proof.
  unfold _Metadata. intros H. ctor_inv H.
  repeat match goal with
         | H : not_nonblank_string _ = false |- _ =>
             apply not_nonblank_string_false in H; destruct H as (? & -> & ?)
         end.
  eauto 15.
Qed.

End BlankStrings.

(** C10.  [TokenGateRole] accepts any non-empty [tokenId] and [role]
    strings, strings of white space such as [" "] included, and rejects
    only empty strings and values that are not strings.  The tag
    constructor, the metadata constructor and the user entity trim before
    testing for emptiness: a [key], [value], [name], [description],
    [creator], [image] or [username] made of white space only is
    rejected. *)
Theorem role_accepts_blank_strings_others_trim :
  (forall tokenId role,
      tokenId <> [] -> role <> [] ->
      new C_Role (TokenGate._Role
                    (record [("tokenId", VStr tokenId); ("role", VStr role)]))
      = Ok (VObj C_Role (<["role" := VStr role]>
                         (<["tokenId" := VStr tokenId]> ∅))))
  /\ (forall input,
         ~ (exists tokenId role,
               get input "tokenId" = Ok (VStr tokenId) /\ tokenId <> [] /\
               get input "role" = Ok (VStr role) /\ role <> []) ->
         fails (new C_Role (TokenGate._Role input)))
  /\ (forall tag s,
         whitespace_only s = true ->
         get tag "key" = Ok (VStr s) \/ get tag "value" = Ok (VStr s) ->
         fails (new C_Tags (User._Tags tag)))
  /\ (forall metadata s,
         whitespace_only s = true ->
         get metadata "name" = Ok (VStr s)
         \/ get metadata "description" = Ok (VStr s)
         \/ get metadata "creator" = Ok (VStr s)
         \/ get metadata "image" = Ok (VStr s) ->
         fails (new C_Metadata (TokenGate._Metadata metadata)))
  /\ (forall entity s,
         whitespace_only s = true ->
         get entity "username" = Ok (VStr s) ->
         fails (new C_User_Entity (User._Entity entity))).
Proof.
  split; [| split; [| split; [| split]]].
  - intros tokenId role Ht Hr. apply Role_Ok. exists tokenId, role.
    repeat split; assumption.
  - intros input Hn. apply fails_not_succeeds. intros [v H].
    apply Role_Ok in H. destruct H as (t & r & Ht & Htn & Hr & Hrn & _).
    apply Hn. exists t, r. auto.
  - intros tag s Hs Hget. apply fails_not_succeeds. intros [v H].
    apply Tags_Ok_inv in H. destruct H as (k & x & Hk & Hkw & Hx & Hxw).
    destruct Hget as [E | E]; [rewrite E in Hk | rewrite E in Hx];
      simplify_eq; congruence.
  - intros metadata s Hs Hget. apply fails_not_succeeds. intros [v H].
    apply Metadata_Ok_inv in H.
    destruct H as (n & d & r & i & Hn & Hnw & Hd & Hdw & Hr & Hrw & Hi & Hiw).
    destruct Hget as [E | [E | [E | E]]];
      [rewrite E in Hn | rewrite E in Hd | rewrite E in Hr | rewrite E in Hi];
      simplify_eq; congruence.
  - intros entity s Hs Hget. apply fails_not_succeeds. intros [v H].
    apply User_Entity_Ok in H.
    destruct H as (un & ? & ? & ? & ? & ? & Hun & Hunw & _).
    rewrite Hget in Hun. simplify_eq. congruence.
Qed.

Lemma role_accepts_blank_strings_others_trim_witness :
  new C_Role (TokenGate._Role
                (record [("tokenId", str " "); ("role", str " ")]))
  = Ok (VObj C_Role (<["role" := str " "]> (<["tokenId" := str " "]> ∅)))
  /\ fails (new C_Role (TokenGate._Role
                          (record [("tokenId", str ""); ("role", str " ")])))
  /\ fails (new C_Tags (User._Tags
                          (record [("key", str " "); ("value", str "admin")])))
  /\ fails (new C_Metadata
                (TokenGate._Metadata
                   (record [("name", str " "); ("description", str "d");
                            ("creator", str "c"); ("properties", record []);
                            ("image", str "i")])))
  /\ fails (new C_User_Entity
                (User._Entity (with_field john "username" (str " ")))).
Proof.
  pose proof role_accepts_blank_strings_others_trim
    as (Hrole & Hrej & Htag & Hmeta & Huser).
  split; [| split; [| split; [| split]]].
  - apply (Hrole (lit " ") (lit " ")); discriminate.
  - apply Hrej. intros (t & r & Ht & Htn & _).
    vm_compute in Ht. injection Ht as <-. contradiction.
  - apply (Htag _ (lit " ")); [reflexivity | left; reflexivity].
  - apply (Hmeta _ (lit " ")); [reflexivity | left; reflexivity].
  - apply (Huser _ (lit " ")); reflexivity.
Defined.

(** ** The e-mail check of the DTOs *)

(** The login DTO, unlike the user entity, asks for the full
    [local@domain.tld] shape. *)
Lemma login_email_needs_shape login :
  ~ (exists s, get login "email" = Ok (VStr s) /\ email_shape s) ->
  fails (new C_Login (Web2Dto._Login login)).
Proof.
  intros Hn. apply fails_not_succeeds. intros [v H].
  apply Login_Ok in H. destruct H as (un & em & pw & _ & _ & Hem & Hsh & _).
  apply Hn. eauto.
Qed.

Lemma login_rejects_half_emails :
  fails (new C_Login (Web2Dto._Login (with_field login_john "email" (str "joe@"))))
  /\ fails (new C_Login
                (Web2Dto._Login
                   (with_field login_john "email" (str "@example.com")))).
Proof. split; eexists; vm_compute; reflexivity. Qed.

(** * Further properties of the constructors *)

(** ** Shapes of values *)

Lemma not_object_false v : not_object v = false <-> is_object v.
Proof.
  unfold not_object, is_object. split.
  - destruct v; simpl; rewrite ?orb_true_r; try discriminate; eauto.
  - intros [(c & o & ->) | (l & ->)]; reflexivity.
Qed.

Lemma not_nonnull_object_false v : not_nonnull_object v = false <-> is_object v.
Proof.
  unfold not_nonnull_object, is_object. split.
  - destruct v; simpl; try discriminate; eauto.
  - intros [(c & o & ->) | (l & ->)]; reflexivity.
Qed.

Lemma nonblank_iff v : not_nonblank_string v = false <-> nonblank v.
Proof. apply not_nonblank_string_false. Qed.

Lemma nonempty_iff v : not_nonempty_string v = false <-> nonempty v.
Proof. apply not_nonempty_string_false. Qed.

Lemma is_boolean_iff v :
  negb (String.eqb (typeof v) "boolean") = false <-> is_boolean v.
Proof. rewrite negb_false_iff. apply typeof_boolean. Qed.

Lemma is_string_iff v :
  negb (String.eqb (typeof v) "string") = false <-> is_string v.
Proof. rewrite negb_false_iff. apply typeof_string. Qed.

Lemma nonblank_nonempty v : nonblank v -> nonempty v.
Proof.
  intros (s & -> & H). exists s. split; [reflexivity |].
  intros ->. discriminate.
Qed.

(** Turns the outcome of each passed check into its meaning. *)
Ltac checks_meaning :=
  repeat match goal with
         | H : not_nonblank_string _ = false |- _ => apply nonblank_iff in H
         | H : not_nonempty_string _ = false |- _ => apply nonempty_iff in H
         | H : not_object _ = false |- _ => apply not_object_false in H
         | H : not_nonnull_object _ = false |- _ =>
             apply not_nonnull_object_false in H
         | H : negb (String.eqb (typeof _) "boolean") = false |- _ =>
             apply is_boolean_iff in H
         | H : negb (String.eqb (typeof _) "string") = false |- _ =>
             apply is_string_iff in H
         end.

(** Discharges the condition of a check from its meaning. *)
Ltac check_passes :=
  first [ apply nonblank_iff; assumption
        | apply nonempty_iff; assumption
        | apply not_object_false; assumption
        | apply not_nonnull_object_false; assumption
        | apply is_boolean_iff; assumption
        | apply is_string_iff; assumption ].

(** Reads a field of a constructed object. *)
Ltac read_fields :=
  simpl get;
  repeat first [ rewrite field_insert
               | rewrite field_insert_ne by discriminate ].

(** ** Twilio secrets and options *)

Lemma Twilio_Secrets_Ok c accountSid authToken serviceSid v :
  new c (Twilio._Secrets accountSid authToken serviceSid) = Ok v <->
  nonblank accountSid /\ nonblank authToken /\ nonblank serviceSid
  /\ v = VObj c (<["serviceSid" := serviceSid]>
                 (<["authToken" := authToken]>
                  (<["accountSid" := accountSid]> ∅))).
Proof.
  unfold Twilio._Secrets. split.
  - intros H. ctor_inv H. checks_meaning. auto.
  - intros (Ha & Ht & Hs & ->). ctor_run; check_passes.
Qed.

Lemma Twilio_Options_Ok Secrets c twilioSecrets enabled v :
  new c (Twilio._Options Secrets twilioSecrets enabled) = Ok v <->
  (exists a t s,
      get twilioSecrets "accountSid" = Ok a /\ nonblank a
      /\ get twilioSecrets "authToken" = Ok t /\ nonblank t
      /\ get twilioSecrets "serviceSid" = Ok s /\ nonblank s)
  /\ is_boolean enabled
  /\ v = VObj c (<["enabled" := enabled]>
                 (<["twilioSecrets" := twilioSecrets]> ∅)).
Proof.
  unfold Twilio._Options. split.
  - intros H. ctor_inv H.
    match goal with
    | H : new _ (Twilio._Secrets _ _ _) = Ok _ |- _ =>
        apply Twilio_Secrets_Ok in H; destruct H as (Ha & Ht & Hs & _)
    end.
    checks_meaning. rewrite insert_insert_eq. eauto 15.
  - intros ((a & t & s & Ha & Na & Ht & Nt & Hs & Ns) & Hb & ->).
    rewrite <- (insert_insert_eq (M := gmap string) ∅ "twilioSecrets"
                  twilioSecrets
                  (VObj Secrets (<["serviceSid" := s]>
                                 (<["authToken" := t]>
                                  (<["accountSid" := a]> ∅))))).
    assert (Hinst : new Secrets (Twilio._Secrets a t s)
                    = Ok (VObj Secrets (<["serviceSid" := s]>
                                        (<["authToken" := t]>
                                         (<["accountSid" := a]> ∅)))))
      by (apply Twilio_Secrets_Ok; auto).
    ctor_run; check_passes.
Qed.

(** X1.  Twilio secrets are accepted exactly when the account SID, the
    auth token and the service SID are strings with a character that is
    not white space, and the three values are read back unchanged. *)
Theorem twilio_secrets_round_trip c accountSid authToken serviceSid :
  (forall v,
      new c (Twilio._Secrets accountSid authToken serviceSid) = Ok v ->
      nonblank accountSid /\ nonblank authToken /\ nonblank serviceSid
      /\ get v "accountSid" = Ok accountSid
      /\ get v "authToken" = Ok authToken
      /\ get v "serviceSid" = Ok serviceSid)
  /\ (nonblank accountSid -> nonblank authToken -> nonblank serviceSid ->
      succeeds (new c (Twilio._Secrets accountSid authToken serviceSid))).
Proof.
  split.
  - intros v H. apply Twilio_Secrets_Ok in H.
    destruct H as (Ha & Ht & Hs & ->). read_fields. auto 10.
  - intros Ha Ht Hs. eexists. apply Twilio_Secrets_Ok. eauto.
Qed.

Lemma twilio_secrets_round_trip_witness :
  nonblank (str "token")
  /\ succeeds (new Object_
                   (Twilio._Secrets (str "AC123") (str "token") (str "VA456"))).
Proof.
  split.
  - edestruct (proj1 (twilio_secrets_round_trip
                        Object_ (str "AC123") (str "token") (str "VA456")))
      as (_ & Ht & _); [vm_compute; reflexivity | exact Ht].
  - apply (proj2 (twilio_secrets_round_trip Object_ _ _ _));
      eexists; (split; [reflexivity | reflexivity]).
Defined.

(** X2.  Twilio options validate the three secrets through the secrets
    constructor and require a boolean [enabled]; what they store under
    [twilioSecrets] is the argument itself, not the validated instance. *)
Theorem twilio_options_keep_raw_secrets Secrets c twilioSecrets enabled :
  (forall v,
      new c (Twilio._Options Secrets twilioSecrets enabled) = Ok v ->
      get v "twilioSecrets" = Ok twilioSecrets
      /\ get v "enabled" = Ok enabled /\ is_boolean enabled
      /\ exists a t s,
          get twilioSecrets "accountSid" = Ok a /\ nonblank a
          /\ get twilioSecrets "authToken" = Ok t /\ nonblank t
          /\ get twilioSecrets "serviceSid" = Ok s /\ nonblank s)
  /\ (forall a t s,
         get twilioSecrets "accountSid" = Ok a -> nonblank a ->
         get twilioSecrets "authToken" = Ok t -> nonblank t ->
         get twilioSecrets "serviceSid" = Ok s -> nonblank s ->
         is_boolean enabled ->
         succeeds (new c (Twilio._Options Secrets twilioSecrets enabled))).
Proof.
  split.
  - intros v H. apply Twilio_Options_Ok in H.
    destruct H as (Hsec & Hb & ->). read_fields. auto.
  - intros a t s Ha Na Ht Nt Hs Ns Hb. eexists. apply Twilio_Options_Ok.
    eauto 15.
Qed.

Lemma twilio_options_keep_raw_secrets_witness :
  is_boolean (VBool true)
  /\ succeeds
       (new Object_
          (Twilio._Options Object_
             (record [("accountSid", str "AC123"); ("authToken", str "token");
                      ("serviceSid", str "VA456")])
             (VBool true))).
Proof.
  split.
  - edestruct (proj1 (twilio_options_keep_raw_secrets
                        Object_ Object_
                        (record [("accountSid", str "AC123");
                                 ("authToken", str "token");
                                 ("serviceSid", str "VA456")])
                        (VBool true)))
      as (_ & _ & Hb & _); [vm_compute; reflexivity | exact Hb].
  - apply (proj2 (twilio_options_keep_raw_secrets Object_ Object_ _ _)
             (str "AC123") (str "token") (str "VA456"));
      first [ reflexivity
            | eexists; split; reflexivity
            | eexists; reflexivity ].
Defined.

(** ** Token gate: entity, metadata, properties and roles *)

(** X3.  A token-gate entity is accepted exactly when [metadata] is a
    non-null object, [serial_number] is a number other than NaN and
    [token_id] is a non-blank string; the three fields are read back
    unchanged.  The metadata is not inspected further. *)
Theorem token_gate_entity_round_trip c entity :
  (forall v,
      new c (TokenGateModels._Entity entity) = Ok v ->
      exists m n t,
        get entity "metadata" = Ok m /\ is_object m
        /\ get entity "serial_number" = Ok (VNum n) /\ isNaN n = false
        /\ get entity "token_id" = Ok t /\ nonblank t
        /\ get v "metadata" = Ok m
        /\ get v "serial_number" = Ok (VNum n)
        /\ get v "token_id" = Ok t)
  /\ (forall m n t,
         get entity "metadata" = Ok m -> is_object m ->
         get entity "serial_number" = Ok (VNum n) -> isNaN n = false ->
         get entity "token_id" = Ok t -> nonblank t ->
         succeeds (new c (TokenGateModels._Entity entity))).
Proof.
  unfold TokenGateModels._Entity. split.
  - intros v H. ctor_inv H. checks_meaning.
    match goal with
    | H : negb (String.eqb (typeof ?x) "number") || _ = false |- _ =>
        apply orb_false_elim in H; destruct H as [Hn Hnan];
        apply negb_false_iff, typeof_number in Hn; destruct Hn as [n ->]
    end.
    simpl in Hnan. do 3 eexists. read_fields.
    repeat (split; [first [eassumption | reflexivity] |]). reflexivity.
  - intros m n t Hm Om Hn Nn Ht Nt. eexists. ctor_run; try check_passes.
    simpl. exact Nn.
Qed.

Lemma token_gate_entity_round_trip_witness :
  succeeds
    (new Object_
       (TokenGateModels._Entity
          (record [("metadata", record []);
                   ("serial_number", VNum (num 1));
                   ("token_id", str "0.0.123")])))
  /\ exists t, get (record [("metadata", record []);
                            ("serial_number", VNum (num 1));
                            ("token_id", str "0.0.123")]) "token_id" = Ok t
               /\ nonblank t.
Proof.
  split.
  - apply (proj2 (token_gate_entity_round_trip Object_ _)
             (record []) (num 1) (str "0.0.123"));
      first [ reflexivity
            | left; eexists _, _; reflexivity
            | eexists; split; reflexivity ].
  - edestruct (proj1 (token_gate_entity_round_trip
                        Object_
                        (record [("metadata", record []);
                                 ("serial_number", VNum (num 1));
                                 ("token_id", str "0.0.123")])))
      as (m & n & t & _ & _ & _ & _ & Ht & Nt & _);
      [vm_compute; reflexivity | eauto].
Defined.

(** X4.  Token metadata is accepted exactly when [name], [description],
    [creator] and [image] are non-blank strings and [properties] is a
    non-null object; the five fields are read back unchanged, and
    [properties] is stored as given, without being run through the
    properties constructor. *)
Theorem token_metadata_round_trip c metadata :
  (forall v,
      new c (TokenGate._Metadata metadata) = Ok v ->
      exists n d r p i,
        get metadata "name" = Ok n /\ nonblank n
        /\ get metadata "description" = Ok d /\ nonblank d
        /\ get metadata "creator" = Ok r /\ nonblank r
        /\ get metadata "properties" = Ok p /\ is_object p
        /\ get metadata "image" = Ok i /\ nonblank i
        /\ get v "name" = Ok n /\ get v "description" = Ok d
        /\ get v "creator" = Ok r /\ get v "properties" = Ok p
        /\ get v "image" = Ok i)
  /\ (forall n d r p i,
         get metadata "name" = Ok n -> nonblank n ->
         get metadata "description" = Ok d -> nonblank d ->
         get metadata "creator" = Ok r -> nonblank r ->
         get metadata "properties" = Ok p -> is_object p ->
         get metadata "image" = Ok i -> nonblank i ->
         succeeds (new c (TokenGate._Metadata metadata))).
Proof.
  unfold TokenGate._Metadata. split.
  - intros v H. ctor_inv H.
    match goal with
    | H : negb (String.eqb (typeof ?p) "object") || _ = false |- _ =>
        change (not_nonnull_object p = false) in H
    end.
    checks_meaning. do 5 eexists. read_fields.
    repeat (split; [first [eassumption | reflexivity] |]). reflexivity.
  - intros n d r p i Hn Nn Hd Nd Hr Nr Hp Op Hi Ni. eexists.
    ctor_run; check_passes.
Qed.

Lemma token_metadata_round_trip_witness :
  succeeds
    (new Object_
       (TokenGate._Metadata
          (record [("name", str "VIP"); ("description", str "pass");
                   ("creator", str "HSuite"); ("properties", record []);
                   ("image", str "ipfs://x")])))
  /\ exists n, get (record [("name", str "VIP"); ("description", str "pass");
                            ("creator", str "HSuite");
                            ("properties", record []);
                            ("image", str "ipfs://x")]) "name" = Ok n
               /\ nonblank n.
Proof.
  split.
  - apply (proj2 (token_metadata_round_trip Object_ _)
             (str "VIP") (str "pass") (str "HSuite") (record [])
             (str "ipfs://x"));
      first [ reflexivity
            | left; eexists _, _; reflexivity
            | eexists; split; reflexivity ].
  - edestruct (proj1 (token_metadata_round_trip
                        Object_
                        (record [("name", str "VIP");
                                 ("description", str "pass");
                                 ("creator", str "HSuite");
                                 ("properties", record []);
                                 ("image", str "ipfs://x")])))
      as (n & d & r & p & i & Hn & Nn & _);
      [vm_compute; reflexivity | eauto].
Defined.

(** X5.  Token properties are accepted exactly when [plan] and
    [periodicity] are non-null objects, stored as given; a plan or a
    periodicity that is a string (or any other primitive) is rejected. *)
Theorem token_properties_need_objects c properties :
  (forall v,
      new c (TokenGateModels._Properties properties) = Ok v ->
      exists plan periodicity,
        get properties "plan" = Ok plan /\ is_object plan
        /\ get properties "periodicity" = Ok periodicity
        /\ is_object periodicity
        /\ get v "plan" = Ok plan /\ get v "periodicity" = Ok periodicity)
  /\ (forall plan periodicity,
         get properties "plan" = Ok plan -> is_object plan ->
         get properties "periodicity" = Ok periodicity ->
         is_object periodicity ->
         succeeds (new c (TokenGateModels._Properties properties)))
  /\ (forall s,
         get properties "plan" = Ok (VStr s)
         \/ get properties "periodicity" = Ok (VStr s) ->
         fails (new c (TokenGateModels._Properties properties))).
Proof.
  assert (Hinv : forall v,
             new c (TokenGateModels._Properties properties) = Ok v ->
             exists plan periodicity,
               get properties "plan" = Ok plan /\ is_object plan
               /\ get properties "periodicity" = Ok periodicity
               /\ is_object periodicity
               /\ get v "plan" = Ok plan
               /\ get v "periodicity" = Ok periodicity).
  { unfold TokenGateModels._Properties. intros v H. ctor_inv H.
    checks_meaning. do 2 eexists. read_fields.
    repeat (split; [first [eassumption | reflexivity] |]). reflexivity. }
  split; [exact Hinv | split].
  - unfold TokenGateModels._Properties. intros plan periodicity Hp Op Hq Oq.
    eexists. ctor_run; check_passes.
  - intros s Hs. apply fails_not_succeeds. intros [v H].
    apply Hinv in H.
    destruct H as (plan & periodicity & Hp & Op & Hq & Oq & _).
    destruct Hs as [E | E]; [rewrite E in Hp | rewrite E in Hq];
      simplify_eq;
      match goal with
      | H : is_object (VStr _) |- _ =>
          destruct H as [(? & ? & ?) | (? & ?)]; discriminate
      end.
Qed.

Lemma token_properties_need_objects_witness :
  succeeds
    (new Object_
       (TokenGateModels._Properties
          (record [("plan", record [("name", str "basic")]);
                   ("periodicity", record [("name", str "monthly")])])))
  /\ fails
       (new Object_
          (TokenGateModels._Properties
             (record [("plan", str "basic");
                      ("periodicity", str "monthly")]))).
Proof.
  split.
  - apply (proj1 (proj2 (token_properties_need_objects Object_ _))
             (record [("name", str "basic")])
             (record [("name", str "monthly")]));
      first [reflexivity | left; eexists _, _; reflexivity].
  - apply (proj2 (proj2 (token_properties_need_objects Object_ _))
             (lit "basic")).
    left. reflexivity.
Defined.

(** X6.  Roles compose with the options: every list of roles built by the
    role constructor, as [_Role] or as [_TokenGate.Role], is accepted by
    the token-gate options, which store the very same instances. *)
Theorem constructed_roles_accepted_by_options enabled inputs roles :
  inputs <> [] ->
  Forall2 (fun input role =>
             new C_Role (TokenGate._Role input) = Ok role
             \/ new C_TokenGate_Role (TokenGate._Role input) = Ok role)
          inputs roles ->
  new C_Options (TokenGate._Options
                   (record [("enabled", VBool enabled);
                            ("roles", VArr roles)]))
  = Ok (VObj C_Options (<["roles" := VArr roles]>
                        (<["enabled" := VBool enabled]> ∅))).
Proof.
  intros Hne Hall. apply Options_Ok. exists enabled, roles.
  split; [reflexivity |]. split; [reflexivity |]. split; [| split].
  - intros ->. apply Forall2_nil_inv_r in Hall. contradiction.
  - clear Hne. induction Hall as [| x y l l' Hr Hl IH]; [constructor |].
    constructor; [| exact IH].
    destruct Hr as [Hr | Hr]; apply Role_Ok in Hr;
      destruct Hr as (? & ? & _ & _ & _ & _ & ->); reflexivity.
  - reflexivity.
Qed.

Lemma constructed_roles_accepted_by_options_witness :
  succeeds
    (new C_Options
       (TokenGate._Options
          (record [("enabled", VBool true);
                   ("roles",
                    VArr [VObj C_TokenGate_Role
                            (<["role" := str "member"]>
                               (<["tokenId" := str "0x1"]> ∅))])]))).
Proof.
  eexists.
  apply (constructed_roles_accepted_by_options true [member_role]).
  - discriminate.
  - constructor; [| constructor]. right. vm_compute. reflexivity.
Defined.

(** ** Responses: logout, second-factor enrolment, verification, deletion *)

Lemma trim_length_zero s : (length (trim s) =? 0)%nat = whitespace_only s.
Proof.
  rewrite <- trim_empty. destruct (trim s); reflexivity.
Qed.

Lemma Web3_Logout_Ok c logout message v :
  new c (Web3Response._Logout logout message) = Ok v <->
  is_boolean logout /\ nonblank message
  /\ v = VObj c (<["message" := message]> (<["logout" := logout]> ∅)).
Proof.
  unfold Web3Response._Logout. split.
  - intros H. ctor_inv H. checks_meaning.
    match goal with
    | H : negb (String.eqb (typeof ?m) "string") || _ = false |- _ =>
        apply orb_false_elim in H; destruct H as [Hs Hl];
        apply is_string_iff in Hs; destruct Hs as [s ->];
        simpl in Hl; rewrite trim_length_zero in Hl
    end.
    repeat split; [assumption | exists s; auto].
  - intros (Hb & (s & -> & Hs) & ->). ctor_run; try check_passes.
    simpl. rewrite trim_length_zero. exact Hs.
Qed.

Lemma Web2_Logout_Ok c logoutData v :
  new c (Web2Response._Logout logoutData) = Ok v <->
  exists logout message,
    get logoutData "logout" = Ok logout /\ is_boolean logout
    /\ get logoutData "message" = Ok message /\ nonblank message
    /\ v = VObj c (<["message" := message]> (<["logout" := logout]> ∅)).
Proof.
  unfold Web2Response._Logout. split.
  - intros H. ctor_inv H. checks_meaning. eauto 10.
  - intros (logout & message & Hl & Bl & Hm & Nm & ->).
    ctor_run; check_passes.
Qed.

(** X7.  The logout responses of the two credential families agree: given
    the same [logout] and [message], the web2 constructor (which takes them
    in a record) and the web3 constructor (which takes them as arguments)
    build objects with the same fields, or both fail; they succeed exactly
    for a boolean [logout] and a non-blank [message]. *)
Theorem logout_responses_agree c logoutData logout message :
  get logoutData "logout" = Ok logout ->
  get logoutData "message" = Ok message ->
  (forall v,
      new c (Web2Response._Logout logoutData) = Ok v <->
      new c (Web3Response._Logout logout message) = Ok v)
  /\ (succeeds (new c (Web3Response._Logout logout message)) <->
      is_boolean logout /\ nonblank message)
  /\ (forall v,
         new c (Web3Response._Logout logout message) = Ok v ->
         get v "logout" = Ok logout /\ get v "message" = Ok message).
Proof.
  intros Hl Hm. split; [| split].
  - intros v. rewrite Web2_Logout_Ok, Web3_Logout_Ok. split.
    + intros (l & m & Hl' & Bl & Hm' & Nm & ->).
      rewrite Hl in Hl'. rewrite Hm in Hm'. simplify_eq. auto.
    + intros (Bl & Nm & ->). exists logout, message. auto 10.
  - split.
    + intros [v H]. apply Web3_Logout_Ok in H. tauto.
    + intros [Bl Nm]. eexists. apply Web3_Logout_Ok. eauto.
  - intros v H. apply Web3_Logout_Ok in H. destruct H as (_ & _ & ->).
    read_fields. auto.
Qed.

Lemma logout_responses_agree_witness :
  succeeds (new Object_ (Web3Response._Logout (VBool true) (str "bye")))
  <-> is_boolean (VBool true) /\ nonblank (str "bye").
Proof.
  refine (proj1 (proj2 (logout_responses_agree
                          Object_
                          (record [("logout", VBool true);
                                   ("message", str "bye")])
                          (VBool true) (str "bye") _ _)));
    reflexivity.
Defined.

(** X8.  The enrolment response is accepted exactly when [factorSid],
    [identity], [uri] and [secret] are non-blank strings and [message] is a
    string, which may be empty; the five values are read back unchanged. *)
Theorem create_response_round_trip c factorSid identity uri secret message :
  (forall v,
      new c (TwoFactorResponse._Create factorSid identity uri secret message)
      = Ok v ->
      nonblank factorSid /\ nonblank identity /\ nonblank uri
      /\ nonblank secret /\ is_string message
      /\ get v "factorSid" = Ok factorSid /\ get v "identity" = Ok identity
      /\ get v "uri" = Ok uri /\ get v "secret" = Ok secret
      /\ get v "message" = Ok message)
  /\ (nonblank factorSid -> nonblank identity -> nonblank uri ->
      nonblank secret -> is_string message ->
      succeeds (new c (TwoFactorResponse._Create
                         factorSid identity uri secret message))).
Proof.
  unfold TwoFactorResponse._Create. split.
  - intros v H. ctor_inv H. checks_meaning. read_fields. auto 15.
  - intros Hf Hi Hu Hs Hm. eexists. ctor_run; check_passes.
Qed.

Lemma create_response_round_trip_witness :
  nonblank (str "YF1")
  /\ succeeds (new Object_
                   (TwoFactorResponse._Create
                      (str "YF1") (str "id@x.com") (str "otpauth://totp/x")
                      (str "SECRET") (str ""))).
Proof.
  split.
  - edestruct (proj1 (create_response_round_trip
                        Object_ (str "YF1") (str "id@x.com")
                        (str "otpauth://totp/x") (str "SECRET") (str "ok")))
      as (Hf & _); [vm_compute; reflexivity | exact Hf].
  - apply (proj2 (create_response_round_trip Object_ _ _ _ _ _));
      first [eexists; split; reflexivity | eexists; reflexivity].
Defined.

(** X9.  The verification and the deletion responses accept the same
    arguments, a boolean [success] and any string [message] (blank or empty
    included, unlike the logout responses), and build objects with the same
    two fields, read back unchanged. *)
Theorem verify_delete_responses_agree c success message :
  (forall v,
      new c (TwoFactorResponse._Verify success message) = Ok v <->
      new c (TwoFactorResponse._Delete success message) = Ok v)
  /\ (forall v,
         new c (TwoFactorResponse._Verify success message) = Ok v ->
         is_boolean success /\ is_string message
         /\ get v "success" = Ok success /\ get v "message" = Ok message)
  /\ (is_boolean success -> is_string message ->
      succeeds (new c (TwoFactorResponse._Verify success message))).
Proof.
  unfold TwoFactorResponse._Verify, TwoFactorResponse._Delete.
  split; [| split].
  - intros v. split; intros H; ctor_inv H; ctor_run; assumption.
  - intros v H. ctor_inv H. checks_meaning. read_fields. auto.
  - intros Hb Hs. eexists. ctor_run; check_passes.
Qed.

Lemma verify_delete_responses_agree_witness :
  is_string (str "")
  /\ succeeds (new Object_ (TwoFactorResponse._Verify (VBool false) (str ""))).
Proof.
  split.
  - edestruct (proj1 (proj2 (verify_delete_responses_agree
                               Object_ (VBool false) (str ""))))
      as (_ & Hs & _); [vm_compute; reflexivity | exact Hs].
  - apply (proj2 (proj2 (verify_delete_responses_agree Object_ _ _)));
      eexists; reflexivity.
Defined.

(** X10.  The wallet login response needs [session] and [operator] to be
    non-null objects and [accessToken] to be a non-empty string; the token
    is not trimmed, so a token of white space is accepted.  The three
    fields are read back unchanged. *)
Theorem web3_login_response_round_trip c data :
  (forall v,
      new c (Web3Response._Login data) = Ok v ->
      exists session operator accessToken,
        get data "session" = Ok session /\ is_object session
        /\ get data "operator" = Ok operator /\ is_object operator
        /\ get data "accessToken" = Ok accessToken /\ nonempty accessToken
        /\ get v "session" = Ok session /\ get v "operator" = Ok operator
        /\ get v "accessToken" = Ok accessToken)
  /\ (forall session operator accessToken,
         get data "session" = Ok session -> is_object session ->
         get data "operator" = Ok operator -> is_object operator ->
         get data "accessToken" = Ok accessToken -> nonempty accessToken ->
         succeeds (new c (Web3Response._Login data))).
Proof.
  unfold Web3Response._Login. split.
  - intros v H. ctor_inv H. checks_meaning. do 3 eexists. read_fields.
    repeat (split; [first [eassumption | reflexivity] |]). reflexivity.
  - intros session operator accessToken Hs Os Ho Oo Ha Na. eexists.
    ctor_run; check_passes.
Qed.

Lemma web3_login_response_round_trip_witness :
  succeeds
    (new Object_
       (Web3Response._Login
          (record [("session", record []); ("operator", record []);
                   ("accessToken", str " ")])))
  /\ exists a, get (record [("session", record []); ("operator", record []);
                            ("accessToken", str " ")]) "accessToken" = Ok a
               /\ nonempty a.
Proof.
  split.
  - apply (proj2 (web3_login_response_round_trip Object_ _)
             (record []) (record []) (str " "));
      first [ reflexivity
            | left; eexists _, _; reflexivity
            | eexists; split; [reflexivity | discriminate] ].
  - edestruct (proj1 (web3_login_response_round_trip
                        Object_
                        (record [("session", record []);
                                 ("operator", record []);
                                 ("accessToken", str " ")])))
      as (s & o & a & _ & _ & _ & _ & Ha & Na & _);
      [vm_compute; reflexivity | eauto].
Defined.

(** ** Wallet handshake: requests *)

(** X11.  The authentication request and the sign-in request check only
    that their two children are present objects and store them as given:
    any non-null object passes, whatever it contains. *)
Theorem handshake_requests_check_presence_only c data :
  (forall v,
      new c (Web3Authentication._Authenticate data) = Ok v ->
      exists signedData payload,
        get data "signedData" = Ok signedData /\ is_object signedData
        /\ get data "payload" = Ok payload /\ is_object payload
        /\ get v "signedData" = Ok signedData
        /\ get v "payload" = Ok payload)
  /\ (forall signedData payload,
         get data "signedData" = Ok signedData -> is_object signedData ->
         get data "payload" = Ok payload -> is_object payload ->
         succeeds (new c (Web3Authentication._Authenticate data)))
  /\ (forall v,
         new c (Web3Authentication._Login data) = Ok v ->
         exists operator signedData,
           get data "operator" = Ok operator /\ is_object operator
           /\ get data "signedData" = Ok signedData /\ is_object signedData
           /\ get v "operator" = Ok operator
           /\ get v "signedData" = Ok signedData)
  /\ (forall operator signedData,
         get data "operator" = Ok operator -> is_object operator ->
         get data "signedData" = Ok signedData -> is_object signedData ->
         succeeds (new c (Web3Authentication._Login data))).
Proof.
  unfold Web3Authentication._Authenticate, Web3Authentication._Login.
  split; [| split; [| split]].
  - intros v H. ctor_inv H. checks_meaning. do 2 eexists. read_fields.
    repeat (split; [first [eassumption | reflexivity] |]). reflexivity.
  - intros signedData payload Hs Os Hp Op. eexists. ctor_run; check_passes.
  - intros v H. ctor_inv H. checks_meaning. do 2 eexists. read_fields.
    repeat (split; [first [eassumption | reflexivity] |]). reflexivity.
  - intros operator signedData Ho Oo Hs Os. eexists. ctor_run; check_passes.
Qed.

Lemma handshake_requests_check_presence_only_witness :
  succeeds
    (new Object_
       (Web3Authentication._Authenticate
          (record [("signedData", record []);
                   ("payload", record [("url", str "not a url")])])))
  /\ exists p, get (record [("signedData", record []);
                            ("payload", record [("url", str "not a url")])])
                   "payload" = Ok p /\ is_object p.
Proof.
  split.
  - apply (proj1 (proj2 (handshake_requests_check_presence_only Object_ _))
             (record []) (record [("url", str "not a url")]));
      first [reflexivity | left; eexists _, _; reflexivity].
  - edestruct (proj1 (handshake_requests_check_presence_only
                        Object_
                        (record [("signedData", record []);
                                 ("payload",
                                  record [("url", str "not a url")])])))
      as (sd & p & _ & _ & Hp & Op & _);
      [vm_compute; reflexivity | eauto].
Defined.

(** X12.  A handshake payload is accepted exactly when [url] is a
    non-empty string that the platform parses as a URL, [node] is a
    non-empty string, and [data] is an object whose [token] has the shape
    the token constructor accepts.  The stored [data] is a fresh token
    object holding that token alone; [url] and [node] are stored as
    given. *)
Theorem payload_builds_validated_token URL_parses c payload :
  (forall v,
      new c (Web3Authentication._Payload URL_parses payload) = Ok v ->
      exists url node data token,
        get payload "url" = Ok (VStr url) /\ url <> []
        /\ URL_parses url = true
        /\ get payload "node" = Ok node /\ nonempty node
        /\ get payload "data" = Ok data /\ is_object data
        /\ get data "token" = Ok (VStr token) /\ token_shape token
        /\ get v "url" = Ok (VStr url) /\ get v "node" = Ok node
        /\ get v "data" = Ok (VObj C_Data {["token" := VStr token]}))
  /\ (forall url node data token,
         get payload "url" = Ok (VStr url) -> url <> [] ->
         URL_parses url = true ->
         get payload "node" = Ok node -> nonempty node ->
         get payload "data" = Ok data -> is_object data ->
         get data "token" = Ok (VStr token) -> token_shape token ->
         succeeds (new c (Web3Authentication._Payload URL_parses payload))).
Proof.
  unfold Web3Authentication._Payload. split.
  - intros v H. ctor_inv H.
    match goal with
    | H : new C_Data _ = Ok _ |- _ =>
        apply Data_Ok in H; destruct H as [(token & -> & Hshape) ->]
    end.
    checks_meaning.
    match goal with
    | H : nonempty ?u, H' : negb (URL_parses (as_string ?u)) = false |- _ =>
        destruct H as (url & -> & Hne); simpl in H';
        apply negb_false_iff in H'
    end.
    exists url. do 3 eexists. read_fields.
    repeat (split; [first [eassumption | reflexivity] |]). reflexivity.
  - intros url node data token Hu Ne Hp Hn Nn Hd Od Ht Hs.
    assert (Hdata : new C_Data (Web3Request._Data (VStr token))
                    = Ok (VObj C_Data {["token" := VStr token]}))
      by (apply Data_Ok; eauto).
    pose proof (token_shape_nonempty token Hs) as Hte.
    eexists. ctor_run; try check_passes.
    + apply nonempty_iff. exists url. auto.
    + simpl. rewrite Hp. reflexivity.
    + destruct token; [contradiction | reflexivity].
Qed.

Lemma payload_builds_validated_token_witness :
  succeeds
    (new Object_
       (Web3Authentication._Payload
          (fun url => negb (is_empty url))
          (record [("url", str "https://example.com/auth");
                   ("node", str "node-1");
                   ("data", record [("token", str "aaa.bbb.ccc");
                                    ("extra", VBool true)])])))
  /\ exists v,
      new Object_
          (Web3Authentication._Payload
             (fun url => negb (is_empty url))
             (record [("url", str "https://example.com/auth");
                      ("node", str "node-1");
                      ("data", record [("token", str "aaa.bbb.ccc");
                                       ("extra", VBool true)])]))
      = Ok v
      /\ exists token, get v "data" = Ok (VObj C_Data {["token" := VStr token]}).
Proof.
  split.
  - apply (proj2 (payload_builds_validated_token _ Object_ _)
             (lit "https://example.com/auth") (str "node-1")
             (record [("token", str "aaa.bbb.ccc"); ("extra", VBool true)])
             (lit "aaa.bbb.ccc"));
      first [ reflexivity
            | discriminate
            | left; eexists _, _; reflexivity
            | eexists; split; [reflexivity | discriminate]
            | idtac ].
    exists (lit "aaa"), (lit "bbb"), (lit ".ccc").
    split; [reflexivity |]. split; [discriminate |]. split; [discriminate |].
    repeat split; repeat constructor.
  - eexists. split; [vm_compute; reflexivity |].
    edestruct (proj1 (payload_builds_validated_token
                        (fun url => negb (is_empty url)) Object_
                        (record [("url", str "https://example.com/auth");
                                 ("node", str "node-1");
                                 ("data",
                                  record [("token", str "aaa.bbb.ccc");
                                          ("extra", VBool true)])])))
      as (url & node & data & token & _ & _ & _ & _ & _ & _ & _ & _ & _ & _
          & _ & Hd);
      [vm_compute; reflexivity |].
    exists token. exact Hd.
Defined.

(** ** Configuration *)

Section ConfigurationFacts.
Import Configuration.

Lemma includes_IPassportStrategy v :
  User.includes IPassportStrategy_values v = true <->
  exists p, v = VStr (IPassportStrategy_value p).
Proof.
  unfold User.includes, IPassportStrategy_values. split.
  - destruct v as [| | | | s | |]; try discriminate. simpl.
    unfold jsstring_eqb. rewrite orb_false_r, orb_true_iff, !bool_decide_eq_true.
    intros [-> | ->]; [exists REDIS | exists JWT]; reflexivity.
  - intros [[] ->]; reflexivity.
Qed.

Lemma passport_check_Ok invalid_passport passport this r :
  (if negb (User.includes IPassportStrategy_values passport)
   then throw (invalid_passport passport) else ret tt) this = Ok r <->
  (exists p, passport = VStr (IPassportStrategy_value p)) /\ r = (tt, this).
Proof.
  rewrite <- includes_IPassportStrategy.
  destruct (User.includes IPassportStrategy_values passport); simpl;
    unfold throw, ret; split.
  - intros [= <-]. auto.
  - intros [_ ->]. reflexivity.
  - discriminate.
  - intros [? _]. discriminate.
Qed.

Lemma Common_Options_Ok invalid_passport c options v :
  new c (_Options invalid_passport options) = Ok v <->
  exists redis jwt cookieOptions operator p appName,
    get options "redis" = Ok redis /\ is_object redis
    /\ get options "jwt" = Ok jwt /\ is_object jwt
    /\ get options "cookieOptions" = Ok cookieOptions
    /\ is_object cookieOptions
    /\ get options "operator" = Ok operator /\ is_object operator
    /\ get options "passport" = Ok (VStr (IPassportStrategy_value p))
    /\ get options "appName" = Ok appName /\ nonblank appName
    /\ v = VObj c
             (<["appName" := appName]>
                (<["passport" := VStr (IPassportStrategy_value p)]>
                   (<["operator" := operator]>
                      (<["cookieOptions" := cookieOptions]>
                         (<["jwt" := jwt]> (<["redis" := redis]> ∅)))))).
Proof.
  unfold _Options. split.
  - intros H. ctor_inv H.
    match goal with
    | H : (if _ then _ else _) _ = Ok _ |- _ =>
        apply passport_check_Ok in H; destruct H as [[p ->] ?]
    end.
    simplify_eq. checks_meaning. eauto 20.
  - intros (redis & jwt & cookieOptions & operator & p & appName & Hr & Or
            & Hj & Oj & Hc & Oc & Ho & Oo & Hp & Ha & Na & ->).
    ctor_run; try check_passes.
    apply passport_check_Ok. eauto.
Qed.



End ConfigurationFacts.

(** X13.  The common options are accepted exactly when [redis], [jwt],
    [cookieOptions] and [operator] are non-null objects, [passport] is one
    of the two strategy strings ['redis'] and ['jwt'], and [appName] is a
    non-blank string; the six fields are read back unchanged. *)
Theorem common_options_round_trip invalid_passport c options :
  (forall v,
      new c (Configuration._Options invalid_passport options) = Ok v ->
      (exists p, get options "passport"
                 = Ok (VStr (Configuration.IPassportStrategy_value p)))
      /\ (exists appName, get options "appName" = Ok appName
                          /\ nonblank appName)
      /\ Forall (fun k => exists x, get options k = Ok x /\ is_object x)
                ["redis"; "jwt"; "cookieOptions"; "operator"]
      /\ Forall (fun k => get v k = get options k)
                ["redis"; "jwt"; "cookieOptions"; "operator"; "passport";
                 "appName"])
  /\ (forall p appName,
         get options "passport"
         = Ok (VStr (Configuration.IPassportStrategy_value p)) ->
         get options "appName" = Ok appName -> nonblank appName ->
         Forall (fun k => exists x, get options k = Ok x /\ is_object x)
                ["redis"; "jwt"; "cookieOptions"; "operator"] ->
         succeeds (new c (Configuration._Options invalid_passport options))).
Proof.
  split.
  - intros v H. apply Common_Options_Ok in H.
    destruct H as (redis & jwt & cookieOptions & operator & p & appName & Hr
                   & Or & Hj & Oj & Hc & Oc & Ho & Oo & Hp & Ha & Na & ->).
    split; [eauto |]. split; [eauto |]. split.
    + repeat constructor; eauto.
    + repeat constructor; read_fields; symmetry; assumption.
  - intros p appName Hp Ha Na Hall.
    apply Forall_cons in Hall. destruct Hall as [(redis & Hr & Or) Hall].
    apply Forall_cons in Hall. destruct Hall as [(jwt & Hj & Oj) Hall].
    apply Forall_cons in Hall. destruct Hall as [(cookie & Hc & Oc) Hall].
    apply Forall_cons in Hall. destruct Hall as [(operator & Ho & Oo) _].
    eexists. apply Common_Options_Ok.
    exists redis, jwt, cookie, operator, p, appName. auto 20.
Qed.

Lemma common_options_round_trip_witness :
  succeeds (new Object_ (Configuration._Options invalid_passport_sample
                                                common_options_sample))
  /\ exists appName,
      get common_options_sample "appName" = Ok appName /\ nonblank appName.
Proof.
  split.
  - apply (proj2 (common_options_round_trip invalid_passport_sample Object_ _)
             Configuration.JWT (str "HSuite")).
    + reflexivity.
    + reflexivity.
    + eexists; split; reflexivity.
    + repeat constructor; eexists; (split; [reflexivity |]);
        left; eexists _, _; reflexivity.
  - edestruct (proj1 (common_options_round_trip
                        invalid_passport_sample Object_
                        common_options_sample))
      as (_ & Ha & _); [vm_compute; reflexivity | exact Ha].
Defined.

Section AuthenticationFacts.
Import Configuration.


End AuthenticationFacts.



Lemma Web2_Options_Ok Options Secrets c options v :
  new c (Web2Configuration._Options Options Secrets options) = Ok v <->
  exists cr ao smo confirm reset mo two secrets enabled,
    get options "confirmation_required" = Ok cr /\ is_boolean cr
    /\ get options "admin_only" = Ok ao /\ is_boolean ao
    /\ get options "sendMailOptions" = Ok smo /\ is_object smo
    /\ get smo "confirm" = Ok confirm /\ truthy confirm = true
    /\ get smo "reset" = Ok reset /\ truthy reset = true
    /\ get options "mailerOptions" = Ok mo /\ is_object mo
    /\ get options "twilioOptions" = Ok two /\ is_object two
    /\ get two "twilioSecrets" = Ok secrets
    /\ get two "enabled" = Ok enabled /\ is_boolean enabled
    /\ (exists a t s,
           get secrets "accountSid" = Ok a /\ nonblank a
           /\ get secrets "authToken" = Ok t /\ nonblank t
           /\ get secrets "serviceSid" = Ok s /\ nonblank s)
    /\ v = VObj c
             (<["twilioOptions" :=
                  VObj Options (<["enabled" := enabled]>
                                (<["twilioSecrets" := secrets]> ∅))]>
                (<["mailerOptions" := mo]>
                   (<["sendMailOptions" := smo]>
                      (<["admin_only" := ao]>
                         (<["confirmation_required" := cr]> ∅))))).
Proof.
  unfold Web2Configuration._Options. split.
  - intros H. ctor_inv H.
    match goal with
    | H : new _ (Twilio._Options _ _ _) = Ok _ |- _ =>
        apply Twilio_Options_Ok in H; destruct H as (Hsec & _ & ->)
    end.
    repeat match goal with
           | H : negb (truthy _) || _ = false |- _ =>
               apply orb_false_elim in H; destruct H as [? ?]
           | H : negb (truthy _) = false |- _ => apply negb_false_iff in H
           end.
    checks_meaning. do 9 eexists.
    repeat (split; [first [eassumption | reflexivity] |]). reflexivity.
  - intros (cr & ao & smo & confirm & reset & mo & two & secrets & enabled
            & Hcr & Bcr & Hao & Bao & Hsmo & Osmo & Hcf & Tcf & Hrs & Trs
            & Hmo & Omo & Htwo & Otwo & Hsec & Hen & Ben & Hfields & ->).
    assert (Htw : new Options (Twilio._Options Secrets secrets enabled)
                  = Ok (VObj Options (<["enabled" := enabled]>
                                      (<["twilioSecrets" := secrets]> ∅))))
      by (apply Twilio_Options_Ok; auto).
    ctor_run; try check_passes.
    + rewrite Tcf, Trs. reflexivity.
    + destruct Hfields as (a & t & s & Ha & (sa & -> & _) & _).
      apply get_VStr_object in Ha; [| discriminate].
      destruct Ha as (k & o & ->). simpl. apply is_boolean_iff. exact Ben.
Qed.

(** X15.  The web2 options hand [twilioOptions.twilioSecrets] and
    [twilioOptions.enabled] to the Twilio options constructor: an accepted
    configuration has secrets made of three non-blank strings, and its
    [twilioOptions] field is a fresh Twilio options object holding those
    secrets and the flag only.  The other four fields are stored as given;
    [sendMailOptions] must carry a truthy [confirm] and [reset]. *)
Theorem web2_options_build_twilio_options Options Secrets c options :
  (forall v,
      new c (Web2Configuration._Options Options Secrets options) = Ok v ->
      (exists two secrets enabled,
          get options "twilioOptions" = Ok two
          /\ get two "twilioSecrets" = Ok secrets
          /\ get two "enabled" = Ok enabled
          /\ Forall (fun k => exists x, get secrets k = Ok x /\ nonblank x)
                    ["accountSid"; "authToken"; "serviceSid"]
          /\ get v "twilioOptions"
             = Ok (VObj Options (<["enabled" := enabled]>
                                 (<["twilioSecrets" := secrets]> ∅))))
      /\ (exists smo confirm reset,
             get options "sendMailOptions" = Ok smo
             /\ get smo "confirm" = Ok confirm /\ truthy confirm = true
             /\ get smo "reset" = Ok reset /\ truthy reset = true)
      /\ Forall (fun k => get v k = get options k)
                ["confirmation_required"; "admin_only"; "sendMailOptions";
                 "mailerOptions"])
  /\ (forall two secrets,
         get options "twilioOptions" = Ok two -> is_object two ->
         get two "twilioSecrets" = Ok secrets ->
         (exists x, get secrets "accountSid" = Ok x /\ ~ nonblank x) ->
         fails (new c (Web2Configuration._Options Options Secrets options))).
Proof.
  split.
  - intros v H. apply Web2_Options_Ok in H.
    destruct H as (cr & ao & smo & confirm & reset & mo & two & secrets
                   & enabled & Hcr & Bcr & Hao & Bao & Hsmo & Osmo & Hcf
                   & Tcf & Hrs & Trs & Hmo & Omo & Htwo & Otwo & Hsec & Hen
                   & Ben & (a & t & s & Ha & Na & Ht & Nt & Hs & Ns) & ->).
    split; [| split].
    + exists two, secrets, enabled. read_fields.
      repeat (split; [first [assumption | reflexivity] |]).
      split; [| reflexivity]. repeat constructor; eauto.
    + exists smo, confirm, reset. auto.
    + repeat constructor; read_fields; symmetry; assumption.
  - intros two secrets Htwo Otwo Hsec (x & Hx & Nx).
    apply fails_not_succeeds. intros [v H]. apply Web2_Options_Ok in H.
    destruct H as (cr & ao & smo & confirm & reset & mo & two' & secrets'
                   & enabled & _ & _ & _ & _ & _ & _ & _ & _ & _ & _ & _ & _
                   & Htwo' & _ & Hsec' & _ & _
                   & (a & t & s & Ha & Na & _) & _).
    rewrite Htwo in Htwo'. simplify_eq. rewrite Hsec in Hsec'. simplify_eq.
    rewrite Hx in Ha. simplify_eq. contradiction.
Qed.

Lemma web2_options_build_twilio_options_witness :
  (exists smo confirm reset,
      get web2_options_sample "sendMailOptions" = Ok smo
      /\ get smo "confirm" = Ok confirm /\ truthy confirm = true
      /\ get smo "reset" = Ok reset /\ truthy reset = true)
  /\ fails
       (new Object_
          (Web2Configuration._Options
             Object_ Object_
             (with_field web2_options_sample "twilioOptions"
                (record [("twilioSecrets",
                          with_field twilio_secrets_sample "accountSid"
                                     (str " "));
                         ("enabled", VBool true)])))).
Proof.
  split.
  - edestruct (proj1 (web2_options_build_twilio_options
                        Object_ Object_ Object_ web2_options_sample))
      as (_ & Hs & _); [vm_compute; reflexivity | exact Hs].
  - eapply (proj2 (web2_options_build_twilio_options
                     Object_ Object_ Object_ _)).
    + vm_compute. reflexivity.
    + left. eexists _, _. reflexivity.
    + vm_compute. reflexivity.
    + exists (str " "). split; [vm_compute; reflexivity |].
      intros (s & E & Hs). injection E as <-. discriminate.
Defined.

(** ** Identities and DTOs: reading back and constructing again *)

(** X16.  An accepted user identity reads back its six fields exactly as
    the input has them, and it is a fixed point of its constructor:
    constructing a user identity from the constructed one gives the same
    object. *)
Theorem user_identity_round_trip entity v :
  new C_User_Entity (User._Entity entity) = Ok v ->
  Forall (fun k => get v k = get entity k)
         ["username"; "email"; "created_at"; "updated_at"; "type"; "tags"]
  /\ new C_User_Entity (User._Entity v) = Ok v.
Proof.
  intros H. apply User_Entity_Ok in H.
  destruct H as (un & em & c & u & ty & tags & Hun & Hunw & Hem & Hat & Hc
                 & Hcp & Hu & Huc & Hty & Htags & Hall & ->).
  split.
  - repeat constructor; read_fields; symmetry; assumption.
  - apply User_Entity_Ok. exists un, em, c, u, ty, tags. read_fields.
    repeat (split; [first [assumption | reflexivity] |]). reflexivity.
Qed.

Lemma user_identity_round_trip_witness :
  exists v,
    new C_User_Entity (User._Entity john) = Ok v
    /\ new C_User_Entity (User._Entity v) = Ok v.
Proof.
  eexists. split; [vm_compute; reflexivity |].
  refine (proj2 (user_identity_round_trip john _ _)).
  vm_compute. reflexivity.
Defined.

(** X17.  An accepted wallet identity cannot be constructed again from
    itself: its [balance] was never stored, and the constructor rejects the
    constructed object with "balance must be an array". *)
Theorem wallet_identity_not_reconstructible entity v c :
  new C_Web3_Entity (Web3._Entity entity) = Ok v ->
  new c (Web3._Entity v) = Throw (Error "balance must be an array").
Proof.
  intros H. apply Web3_Entity_Ok in H.
  destruct H as (w & p & l & _ & Hw & _ & Hp & _ & ->).
  assert (Bw : not_nonblank_string (VStr w) = false)
    by (apply not_nonblank_string_false; eauto).
  assert (Bp : not_nonblank_string (VStr p) = false)
    by (apply not_nonblank_string_false; eauto).
  unfold Web3._Entity, new, bind, lift, throw_if, assign, ret, throw.
  read_fields. rewrite Bw, Bp. reflexivity.
Qed.

Lemma wallet_identity_not_reconstructible_witness :
  exists v,
    new C_Web3_Entity (Web3._Entity wallet) = Ok v
    /\ new C_Web3_Entity (Web3._Entity v)
       = Throw (Error "balance must be an array").
Proof.
  eexists. split; [vm_compute; reflexivity |].
  refine (wallet_identity_not_reconstructible wallet _ _ _).
  vm_compute. reflexivity.
Defined.

Section SignupFacts.
Import RegExp Web2Dto.

Lemma array_map_lift_Ok (g : value -> result value) l this l' this' :
  array_map (fun x => lift (g x)) l this = Ok (l', this') <->
  this' = this /\ Forall2 (fun x y => g x = Ok y) l l'.
Proof.
  revert l' this'. induction l as [| x l IH]; simpl; intros l' this'.
  - rewrite ret_Ok. split.
    + intros [= -> ->]. split; [reflexivity | constructor].
    + intros [-> H]. apply Forall2_nil_inv_l in H. subst. reflexivity.
  - rewrite bind_Ok. split.
    + intros (y & this1 & Hx & H). apply lift_Ok in Hx.
      destruct Hx as (? & Hg & E). simplify_eq.
      apply bind_Ok in H. destruct H as (ys & this2 & Hl & H).
      apply IH in Hl. destruct Hl as [-> Hall].
      apply ret_Ok in H. simplify_eq.
      split; [reflexivity |]. constructor; assumption.
    + intros [-> H]. apply Forall2_cons_inv_l in H.
      destruct H as (y & ys & Hg & Hall & ->).
      exists y, this. split; [apply lift_Ok; eauto |].
      apply bind_Ok. exists ys, this. split; [apply IH; auto |].
      reflexivity.
Qed.

Lemma Tags_Ok c tag v :
  new c (User._Tags tag) = Ok v <->
  exists k x,
    get tag "key" = Ok k /\ nonblank k
    /\ get tag "value" = Ok x /\ nonblank x
    /\ v = VObj c (<["value" := x]> (<["key" := k]> ∅)).
Proof.
  unfold User._Tags. split.
  - intros H. ctor_inv H. checks_meaning. eauto 10.
  - intros (k & x & Hk & Nk & Hx & Nx & ->). ctor_run; check_passes.
Qed.

Lemma Signup_Ok signup v :
  new C_Signup (_Signup signup) = Ok v <->
  exists un em pw tags tags',
    get signup "username" = Ok (VStr un) /\ whitespace_only un = false
    /\ get signup "email" = Ok (VStr em) /\ email_shape em
    /\ get signup "password" = Ok (VStr pw) /\ 8 <= length pw
    /\ get signup "tags" = Ok (VArr tags) /\ tags <> []
    /\ Forall2 (fun tag tag' => new C_User_Tags (User._Tags tag) = Ok tag')
               tags tags'
    /\ v = VObj C_Signup
             (<["tags" := VArr tags']>
                (<["password" := VStr pw]>
                   (<["email" := VStr em]> (<["username" := VStr un]> ∅)))).
Proof.
  unfold _Signup. split.
  - intros H. ctor_inv H.
    repeat match goal with
           | H : not_nonblank_string _ = false |- _ =>
               apply not_nonblank_string_false in H; destruct H as (? & -> & ?)
           | H : negb (Array_isArray ?a) || _ = false |- _ =>
               apply orb_false_elim in H; destruct H as [H ?];
               apply negb_false_iff in H; destruct a; try discriminate; clear H
           | H : negb (String.eqb (typeof _) "string") || _ = false |- _ =>
               apply orb_false_elim in H; destruct H as [H ?];
               apply negb_false_iff, typeof_string in H; destruct H as [? ->]
           | H : negb (test _ _) = false |- _ =>
               apply negb_false_iff, emailRegex_shape in H
           | H : (_ <? _)%nat = false |- _ => apply Nat.ltb_ge in H
           | H : array_map _ _ _ = Ok _ |- _ =>
               apply array_map_lift_Ok in H; destruct H as [-> ?]
           end.
    simpl in *. do 5 eexists.
    repeat (split; [first [eassumption | reflexivity] |]).
    split; [| split; [eassumption | reflexivity]].
    intros ->. discriminate.
  - intros (un & em & pw & tags & tags' & Hun & Hunw & Hem & Hsh & Hpw & Hlen
            & Htags & Hne & Hall & ->).
    ctor_run.
    + apply not_nonblank_string_false. eauto.
    + simpl. apply emailRegex_shape in Hsh. rewrite Hsh. reflexivity.
    + simpl. apply Nat.ltb_ge. exact Hlen.
    + simpl. destruct tags; [contradiction | reflexivity].
    + apply array_map_lift_Ok. auto.
Qed.

Lemma email_char_count s :
  Forall email_char s -> occurrences (chr "@") s = 0.
Proof.
  unfold occurrences. induction 1 as [| c s [_ Hc] _ IH]; [reflexivity |].
  simpl. destruct (N.eqb_spec c (chr "@")); [contradiction | exact IH].
Qed.

Lemma occurrences_app c s t :
  occurrences c (s ++ t) = occurrences c s + occurrences c t.
Proof. unfold occurrences. rewrite List.filter_app, length_app. reflexivity. Qed.

Lemma email_shape_facts s :
  email_shape s ->
  occurrences (chr "@") s = 1
  /\ Forall (fun c => is_white_space c = false) s
  /\ In (chr ".") s /\ 5 <= length s.
Proof.
  intros (l & d & t & -> & Hl & Hd & Ht & Fl & Fd & Ft).
  split; [| split; [| split]].
  - change (chr "@" :: d ++ chr "." :: t)
      with ([chr "@"] ++ d ++ [chr "."] ++ t).
    rewrite !occurrences_app, (email_char_count l Fl),
      (email_char_count d Fd), (email_char_count t Ft). reflexivity.
  - assert (W : forall x, Forall email_char x ->
                          Forall (fun c => is_white_space c = false) x).
    { intros x Hx. eapply Forall_impl; [exact Hx |]. intros c [Hc _]. exact Hc. }
    apply Forall_app. split; [auto |]. constructor; [reflexivity |].
    apply Forall_app. split; [auto |]. constructor; [reflexivity | auto].
  - apply in_or_app. right. right. apply in_or_app. right. left. reflexivity.
  - rewrite length_app. simpl. rewrite length_app. simpl.
    destruct l; [contradiction |]. destruct d; [contradiction |].
    destruct t; [contradiction |]. simpl. lia.
Qed.

End SignupFacts.

(** X18.  The signup DTO needs a non-empty tag list and rebuilds it: the
    stored list has one fresh tag object per input tag, in order, holding
    the non-blank [key] and [value] of that tag and nothing else. *)
Theorem signup_rebuilds_tags signup v :
  new C_Signup (Web2Dto._Signup signup) = Ok v ->
  exists tags tags',
    get signup "tags" = Ok (VArr tags) /\ tags <> []
    /\ get v "tags" = Ok (VArr tags')
    /\ Forall2 (fun tag tag' =>
                  exists k x,
                    get tag "key" = Ok k /\ nonblank k
                    /\ get tag "value" = Ok x /\ nonblank x
                    /\ tag' = VObj C_User_Tags
                                (<["value" := x]> (<["key" := k]> ∅)))
               tags tags'.
Proof.
  intros H. apply Signup_Ok in H.
  destruct H as (un & em & pw & tags & tags' & _ & _ & _ & _ & _ & _ & Htags
                 & Hne & Hall & ->).
  exists tags, tags'. read_fields.
  repeat (split; [first [assumption | reflexivity] |]).
  eapply Forall2_impl; [exact Hall |]. intros tag tag' Ht.
  apply Tags_Ok in Ht. exact Ht.
Qed.

Lemma signup_rebuilds_tags_witness :
  exists (tags tags' : list value),
    get (with_field signup_john "tags"
           (VArr [record [("key", str "role"); ("value", str "user");
                          ("note", str "dropped")]]))
        "tags" = Ok (VArr tags)
    /\ length tags' = 1.
Proof.
  edestruct (signup_rebuilds_tags
               (with_field signup_john "tags"
                  (VArr [record [("key", str "role"); ("value", str "user");
                                 ("note", str "dropped")]])))
    as (tags & tags' & Ht & _ & _ & Hall); [vm_compute; reflexivity |].
  exists tags, tags'. split; [exact Ht |].
  vm_compute in Ht. injection Ht as <-.
  apply Forall2_length in Hall. simpl in Hall. congruence.
Defined.

(** X19.  Every input accepted by the signup DTO is accepted by the login
    DTO as well, and the two objects agree on [username], [email] and
    [password]. *)
Theorem signup_input_is_login_input dto v :
  new C_Signup (Web2Dto._Signup dto) = Ok v ->
  exists v',
    new C_Login (Web2Dto._Login dto) = Ok v'
    /\ Forall (fun k => get v' k = get v k /\ get v k = get dto k)
              ["username"; "email"; "password"].
Proof.
  intros H. apply Signup_Ok in H.
  destruct H as (un & em & pw & tags & tags' & Hun & Hunw & Hem & Hsh & Hpw
                 & Hlen & _ & _ & _ & ->).
  eexists. split.
  - apply Login_Ok. exists un, em, pw. auto 10.
  - repeat constructor; read_fields; first [reflexivity | symmetry; assumption].
Qed.

Lemma signup_input_is_login_input_witness :
  succeeds (new C_Login (Web2Dto._Login signup_john)).
Proof.
  edestruct (signup_input_is_login_input signup_john) as (v' & H & _);
    [vm_compute; reflexivity |].
  exists v'. exact H.
Defined.

(** X20.  The e-mail of an accepted login or signup DTO contains exactly
    one [@], no white space and at least one dot, and has at least five
    characters. *)
Theorem dto_email_single_at dto v :
  new C_Login (Web2Dto._Login dto) = Ok v
  \/ new C_Signup (Web2Dto._Signup dto) = Ok v ->
  exists s,
    get dto "email" = Ok (VStr s)
    /\ occurrences (chr "@") s = 1
    /\ Forall (fun c => is_white_space c = false) s
    /\ In (chr ".") s /\ 5 <= length s.
Proof.
  intros [H | H].
  - apply Login_Ok in H.
    destruct H as (un & em & pw & _ & _ & Hem & Hsh & _).
    exists em. split; [exact Hem | apply email_shape_facts; exact Hsh].
  - apply Signup_Ok in H.
    destruct H as (un & em & pw & ? & ? & _ & _ & Hem & Hsh & _).
    exists em. split; [exact Hem | apply email_shape_facts; exact Hsh].
Qed.

Lemma dto_email_single_at_witness :
  exists s,
    get login_john "email" = Ok (VStr s)
    /\ occurrences (chr "@") s = 1.
Proof.
  edestruct (dto_email_single_at login_john) as (s & Hs & Hc & _).
  - left. vm_compute. reflexivity.
  - exists s. split; assumption.
Defined.

(** ** Second factor state with an object status *)

(** X21.  The second-factor state constructor accepts exactly a [status]
    that is a non-null object (a record, an instance or an array) together
    with three non-blank strings, and reads the four values back
    unchanged; a status of any primitive type is rejected. *)
Theorem second_factor_state_needs_object_status
        c status factorSid identity qr_code :
  (forall v,
      new c (TwoFactor._Auth status factorSid identity qr_code) = Ok v ->
      is_object status /\ nonblank factorSid /\ nonblank identity
      /\ nonblank qr_code
      /\ get v "status" = Ok status /\ get v "factorSid" = Ok factorSid
      /\ get v "identity" = Ok identity /\ get v "qr_code" = Ok qr_code)
  /\ (is_object status -> nonblank factorSid -> nonblank identity ->
      nonblank qr_code ->
      succeeds (new c (TwoFactor._Auth status factorSid identity qr_code))).
Proof.
  unfold TwoFactor._Auth. split.
  - intros v H. ctor_inv H.
    match goal with
    | H : negb (String.eqb (typeof ?p) "object") || _ = false |- _ =>
        change (not_nonnull_object p = false) in H
    end.
    checks_meaning. read_fields. auto 15.
  - intros Hs Hf Hi Hq. eexists. ctor_run; check_passes.
Qed.

Lemma second_factor_state_needs_object_status_witness :
  is_object (VArr [])
  /\ succeeds (new C_Auth (TwoFactor._Auth
                             (VArr []) (str "YF1") (str "user@example.com")
                             (str "data:image/png;base64,AAAA"))).
Proof.
  split.
  - edestruct (proj1 (second_factor_state_needs_object_status
                        C_Auth (VArr []) (str "YF1")
                        (str "user@example.com")
                        (str "data:image/png;base64,AAAA")))
      as (Hs & _); [vm_compute; reflexivity | exact Hs].
  - apply (proj2 (second_factor_state_needs_object_status C_Auth _ _ _ _));
      first [ right; eexists; reflexivity
            | eexists; split; reflexivity ].
Defined.
